(** * OpticsWorkbench: the dispersion engine and the lens parameter reconciler

    A shallow embedding of [OpticalObject.py]:

    - [refraction_index_from_sellmeier], the Sellmeier dispersion formula,
      over Python numbers (unbounded [int], binary64 [float]) with the
      exceptions Python raises;
    - [LensWorker.getMaterials], the material catalog;
    - [LensWorker.onChanged], the change handler that keeps [Material],
      [Sellmeier] and [RefractionIndex] of a lens consistent, with the
      [update] flag that guards it against the notifications its own writes
      cause. *)

From Stdlib Require Import ZArith QArith Qabs List String Bool Lia.
From Stdlib Require Import Floats.SpecFloat.
Import ListNotations.

Local Open Scope string_scope.
Local Open Scope list_scope.
Local Open Scope Z_scope.

(** ** Exceptions and results *)

(** The Python exceptions that the modelled code can raise. *)
Inductive exn : Type :=
| TypeError
| ValueError
| KeyError
| ZeroDivisionError
| OverflowError
| AttributeError.

(** The outcome of evaluating a Python expression. *)
Inductive result (A : Type) : Type :=
| Ok (a : A)
| Raise (e : exn).

Arguments Ok {A} a.
Arguments Raise {A} e.

Definition bind {A B : Type} (r : result A) (k : A -> result B) : result B :=
  match r with
  | Ok a => k a
  | Raise e => Raise e
  end.

Declare Scope py_scope.
Delimit Scope py_scope with py.
Notation "x <- c1 ;; c2" := (bind c1 (fun x => c2))
  (at level 100, c1 at next level, right associativity) : py_scope.
Local Open Scope py_scope.

(** ** Python numbers *)

(** A Python [float] is an IEEE 754 binary64 value. *)
Definition prec : Z := 53.
Definition emax : Z := 1024.

Definition float : Type := spec_float.

(** The least exponent of a binary64 value. *)
Definition emin : Z := SpecFloat.emin prec emax.

(** Whether a value is a well-formed binary64: a mantissa in normal form and
    an exponent in range. *)
Definition binary64 (f : float) : bool := valid_binary prec emax f.

Definition fadd : float -> float -> float := SFadd prec emax.
Definition fsub : float -> float -> float := SFsub prec emax.
Definition fmul : float -> float -> float := SFmul prec emax.
Definition fdiv : float -> float -> float := SFdiv prec emax.
Definition fsqrt : float -> float := SFsqrt prec emax.

Definition is_zero (f : float) : bool :=
  match f with S754_zero _ => true | _ => false end.

Definition is_inf (f : float) : bool :=
  match f with S754_infinity _ => true | _ => false end.

Definition is_nan (f : float) : bool :=
  match f with S754_nan => true | _ => false end.

(** The value that is passed around: an [int] of any size or a [float]. *)
Inductive num : Type :=
| PyInt (z : Z)
| PyFloat (f : float).

(** The binary64 value nearest to an integer (ties to even); an infinity when
    the integer is beyond the binary64 range. *)
Definition float_of_Z (z : Z) : float := binary_normalize prec emax z 0 false.

(** The conversion behind every mixed [int]/[float] operation: an [int] too
    large for a [float] raises [OverflowError]. *)
Definition as_double (x : num) : result float :=
  match x with
  | PyFloat f => Ok f
  | PyInt z =>
      let f := float_of_Z z in
      if is_inf f then Raise OverflowError else Ok f
  end.

(** [+], [-] and [*]: exact on two [int]s, binary64 otherwise.  The binary64
    operations never raise: an overflow gives an infinity. *)
Definition arith (iop : Z -> Z -> Z) (fop : float -> float -> float)
    (x y : num) : result num :=
  match x, y with
  | PyInt a, PyInt b => Ok (PyInt (iop a b))
  | _, _ =>
      a <- as_double x ;;
      b <- as_double y ;;
      Ok (PyFloat (fop a b))
  end.

Definition py_add : num -> num -> result num := arith Z.add fadd.
Definition py_sub : num -> num -> result num := arith Z.sub fsub.
Definition py_mul : num -> num -> result num := arith Z.mul fmul.

(** The correctly rounded quotient of two integers, [b <> 0]. *)
Definition Z_quotient_to_float (a b : Z) : float :=
  let negate := xorb (a <? 0) (b <? 0) in
  if a =? 0 then S754_zero negate
  else
    let '(q, e, l) := SFdiv_core_binary prec emax (Z.abs a) 0 (Z.abs b) 0 in
    binary_round_aux prec emax negate q e l.

(** [/] on two [int]s. *)
Definition int_true_divide (a b : Z) : result float :=
  if b =? 0 then Raise ZeroDivisionError
  else
    let r := Z_quotient_to_float a b in
    if is_inf r then Raise OverflowError else Ok r.

(** [/]: a zero divisor raises [ZeroDivisionError], whatever the dividend. *)
Definition py_truediv (x y : num) : result num :=
  match x, y with
  | PyInt a, PyInt b =>
      r <- int_true_divide a b ;;
      Ok (PyFloat r)
  | _, _ =>
      a <- as_double x ;;
      b <- as_double y ;;
      if is_zero b then Raise ZeroDivisionError else Ok (PyFloat (fdiv a b))
  end.

(** [math.sqrt]: the argument is converted to a [float]; a result that is
    not a number for an argument that is one raises [ValueError]. *)
Definition math_sqrt (x : num) : result num :=
  f <- as_double x ;;
  let r := fsqrt f in
  if is_nan r && negb (is_nan f) then Raise ValueError else Ok (PyFloat r).

(** A decimal literal [m * 10^-k] of the source text, as the [float] Python
    reads it: the nearest binary64 value. *)
Definition literal (m : Z) (k : nat) : num :=
  PyFloat (Z_quotient_to_float m (10 ^ Z.of_nat k)).

(** Unary minus. *)
Definition py_neg (x : num) : num :=
  match x with
  | PyInt z => PyInt (- z)
  | PyFloat f => PyFloat (SFopp f)
  end.

(** The values a Sellmeier attribute or table entry can hold: [None], or a
    tuple or list of numbers. *)
Inductive pyval : Type :=
| PyNone
| PySeq (items : list num).

(** ** The material catalog *)

(** [d[key]] on a dict literal, kept in the order it is written. *)
Fixpoint dict_getitem {V : Type} (d : list (string * V)) (key : string)
    : result V :=
  match d with
  | [] => Raise KeyError
  | (k, v) :: d' => if String.eqb key k then Ok v else dict_getitem d' key
  end.

(** [LensWorker.getMaterials]. *)
Definition getMaterials : list (string * pyval) :=
  [ ("?", PyNone);
    ("Vacuum", PySeq [PyInt 0; PyInt 0; PyInt 0; PyInt 0; PyInt 0; PyInt 0]);
    ("Air", PySeq [literal 4915889 10; literal 5368273 11;
                   py_neg (literal 1949567 10);
                   literal 4352140 3; literal 1747001 2; PyInt 4258444000]);
    ("Quartz", PySeq [literal 6961663 7; literal 4079426 7; literal 8974794 7;
                      literal 467914826 5; literal 135120631 4;
                      literal 979340025 1]);
    ("PMMA (plexiglass)", PySeq [literal 11819 4; PyInt 0; PyInt 0;
                                 PyInt 11313; PyInt 0; PyInt 0]);
    ("Window glass", PySeq [literal 103961212 8; literal 231792344 9;
                            literal 101046945 8; literal 600069867 5;
                            literal 200179144 4; PyInt 103560653]);
    ("Polycarbonate", PySeq [literal 14182 4; PyInt 0; PyInt 0;
                             PyInt 21304; PyInt 0; PyInt 0]) ].

(** [list(self.getMaterials())]: the keys, in order. *)
Definition material_names : list string := map fst getMaterials.

(** ** The lens record and its host *)

(** What the handler does to its surroundings, in order: a write to a
    property of the feature, or a call of the dispersion engine. *)
Inductive event : Type :=
| SetProperty (name : string)
| CallDispersion.

(** A lens: the worker's [update] flag and the properties of its feature
    [fp], typed as [LensWorker.__init__] declares them ([Material] an
    enumeration, [Sellmeier] a float list, [RefractionIndex] a float).
    [Sellmeier] is [None] while the feature has no such property.  [trace]
    records the events so far, oldest first. *)
Record lens : Type := mkLens {
  update : bool;
  Material : string;
  Sellmeier : option (list float);
  RefractionIndex : float;
  trace : list event
}.

Definition with_update (b : bool) (w : lens) : lens :=
  mkLens b (Material w) (Sellmeier w) (RefractionIndex w) (trace w).

Definition with_Material (m : string) (w : lens) : lens :=
  mkLens (update w) m (Sellmeier w) (RefractionIndex w) (trace w).

Definition with_Sellmeier (s : list float) (w : lens) : lens :=
  mkLens (update w) (Material w) (Some s) (RefractionIndex w) (trace w).

Definition with_RefractionIndex (n : float) (w : lens) : lens :=
  mkLens (update w) (Material w) (Sellmeier w) n (trace w).

Definition log (ev : event) (w : lens) : lens :=
  mkLens (update w) (Material w) (Sellmeier w) (RefractionIndex w)
         (trace w ++ [ev]).

(** How a piece of the handler ends: normally, with an exception, or cut
    short by the bound on nested notifications.  The lens is returned in
    each of the first two: an exception undoes nothing. *)
Inductive outcome (A : Type) : Type :=
| Done (a : A) (w : lens)
| Failed (e : exn) (w : lens)
| OutOfFuel.

Arguments Done {A} a w.
Arguments Failed {A} e w.
Arguments OutOfFuel {A}.

Definition M (A : Type) : Type := lens -> outcome A.

Definition ret {A : Type} (a : A) : M A := fun w => Done a w.

Definition seq {A B : Type} (c : M A) (k : A -> M B) : M B :=
  fun w =>
    match c w with
    | Done a w' => k a w'
    | Failed e w' => Failed e w'
    | OutOfFuel => OutOfFuel
    end.

Definition lift {A : Type} (r : result A) : M A :=
  fun w =>
    match r with
    | Ok a => Done a w
    | Raise e => Failed e w
    end.

Notation "x <~ c1 ;; c2" := (seq c1 (fun x => c2))
  (at level 100, c1 at next level, right associativity).
Notation "c1 ;;; c2" := (seq c1 (fun _ => c2))
  (at level 100, right associativity).

Definition when (b : bool) (c : M unit) : M unit :=
  if b then c else ret tt.

Fixpoint mapM {A B : Type} (f : A -> result B) (xs : list A)
    : result (list B) :=
  match xs with
  | [] => Ok []
  | x :: xs' =>
      y <- f x ;;
      ys <- mapM f xs' ;;
      Ok (y :: ys)
  end.

(** [fp.Material]. *)
Definition get_Material : M string := fun w => Done (Material w) w.

(** [fp.Sellmeier]: the stored floats as a list. *)
Definition get_Sellmeier : M pyval :=
  fun w =>
    match Sellmeier w with
    | Some s => Done (PySeq (map PyFloat s)) w
    | None => Failed AttributeError w
    end.

(** A [pow] that squares its first argument with one rounding: what a
    correctly rounded [pow] gives at the exponent 2. *)
Definition pow_at_2 (x y : float) : float := fmul x x.

Section Workbench.

(** The C library's [pow], which Python's [**] calls on two [float]s.  How it
    rounds is left to the platform, so it is a parameter of the development. *)
Variable libm_pow : float -> float -> float.

(** ** The dispersion engine *)

(** [x ** 2] on a [float]: Python settles the special values itself and
    raises [OverflowError] when [pow] overflows. *)
Definition float_pow2 (iv : float) : result float :=
  match iv with
  | S754_nan => Ok iv
  | S754_infinity _ => Ok (S754_infinity false)
  | S754_zero _ => Ok (S754_zero false)
  | S754_finite _ m e =>
      let a := S754_finite false m e in
      if SFeqb a (float_of_Z 1) then Ok (float_of_Z 1)
      else
        let ix := libm_pow a (float_of_Z 2) in
        if is_inf ix then Raise OverflowError else Ok ix
  end.

(** [x ** 2]. *)
Definition py_pow2 (x : num) : result num :=
  match x with
  | PyInt z => Ok (PyInt (z ^ 2))
  | PyFloat f =>
      r <- float_pow2 f ;;
      Ok (PyFloat r)
  end.

(** [refraction_index_from_sellmeier(wavelength, sellmeier)].  The operands
    are evaluated left to right, as Python does. *)
Definition refraction_index_from_sellmeier (wavelength : num)
    (sellmeier : pyval) : result num :=
  match sellmeier with
  | PyNone => Raise TypeError
  | PySeq [b1; b2; b3; c1; c2; c3] =>
      let l := wavelength in
      l2 <- py_pow2 l ;;
      n1 <- py_mul b1 l2 ;;
      l2 <- py_pow2 l ;;
      d1 <- py_sub l2 c1 ;;
      t1 <- py_truediv n1 d1 ;;
      s1 <- py_add (PyInt 1) t1 ;;
      l2 <- py_pow2 l ;;
      n2 <- py_mul b2 l2 ;;
      l2 <- py_pow2 l ;;
      d2 <- py_sub l2 c2 ;;
      t2 <- py_truediv n2 d2 ;;
      s2 <- py_add s1 t2 ;;
      l2 <- py_pow2 l ;;
      n3 <- py_mul b3 l2 ;;
      l2 <- py_pow2 l ;;
      d3 <- py_sub l2 c3 ;;
      t3 <- py_truediv n3 d3 ;;
      s3 <- py_add s2 t3 ;;
      math_sqrt s3
  | PySeq _ => Raise ValueError
  end.

(** The call of the dispersion engine, recorded in the trace. *)
Definition call_dispersion (wavelength : num) (sellmeier : pyval) : M num :=
  fun w => lift (refraction_index_from_sellmeier wavelength sellmeier)
                (log CallDispersion w).

(** ** The reconciler *)

(** The host's writes.  Each stores the value as the property's type allows
    and then notifies the worker, which is the call [notify name]. *)
Section Host.

Variable notify : string -> M unit.

(** [fp.Sellmeier = v]: a float list takes a sequence of numbers and rejects
    [None]. *)
Definition set_Sellmeier (v : pyval) : M unit :=
  fun w =>
    match v with
    | PyNone => Failed TypeError w
    | PySeq xs =>
        match mapM as_double xs with
        | Raise e => Failed e w
        | Ok s => notify "Sellmeier" (log (SetProperty "Sellmeier") (with_Sellmeier s w))
        end
    end.

(** [fp.RefractionIndex = v]. *)
Definition set_RefractionIndex (v : num) : M unit :=
  fun w =>
    match as_double v with
    | Raise e => Failed e w
    | Ok n =>
        notify "RefractionIndex"
               (log (SetProperty "RefractionIndex") (with_RefractionIndex n w))
    end.

(** [fp.Material = v]: an enumeration takes one of its names only. *)
Definition set_Material (v : string) : M unit :=
  fun w =>
    if existsb (String.eqb v) material_names
    then notify "Material" (log (SetProperty "Material") (with_Material v w))
    else Failed ValueError w.

(** The three [if prop == ...] statements of [LensWorker.onChanged], which
    run between clearing the flag and setting it again. *)
Definition branches (prop : string) : M unit :=
  when (String.eqb prop "Material")
    (m <~ get_Material ;;
     sellmeier <~ lift (dict_getitem getMaterials m) ;;
     set_Sellmeier sellmeier ;;;
     s <~ get_Sellmeier ;;
     n <~ call_dispersion (PyInt 580) s ;;
     set_RefractionIndex n) ;;;
  when (String.eqb prop "Sellmeier")
    (s <~ get_Sellmeier ;;
     n <~ call_dispersion (PyInt 580) s ;;
     set_RefractionIndex n) ;;;
  when (String.eqb prop "RefractionIndex")
    (set_Material "?" ;;;
     set_Sellmeier (PySeq [])).

(** The body of [LensWorker.onChanged(fp, prop)]: the two early returns,
    then the branches with the flag cleared, then the flag set again. *)
Definition onChanged_body (prop : string) : M unit :=
  fun w =>
    if negb (update w) then Done tt w
    else
      let w := with_update false w in
      if match Sellmeier w with Some _ => false | None => true end
      then Done tt w
      else (branches prop ;;; fun w => Done tt (with_update true w)) w.

End Host.

(** [LensWorker.onChanged(fp, prop)]: the body, with the worker itself as
    the one the host notifies.  The handler's own writes notify it again;
    [fuel] bounds how deep such notifications nest. *)
Fixpoint onChanged (fuel : nat) : string -> M unit :=
  match fuel with
  | O => fun _ _ => OutOfFuel
  | S fuel' => onChanged_body (onChanged fuel')
  end.

(** ** The Sellmeier equation of the specification *)

(** [1.0] and [0.0]. *)
Definition one : float := S754_finite false 4503599627370496 (-52).
Definition zero : float := S754_zero false.

(** The equation as the specification words it, evaluated in binary64:
    [n^2 = 1 + sum for i = 1..3 of Bi * l2 / (l2 - Ci)], where [l2] is the
    square of the wavelength, and [n] is the square root of that sum. *)
Definition sellmeier_term (l2 : float) (bc : float * float) : float :=
  fdiv (fmul (fst bc) l2) (fsub l2 (snd bc)).

Definition sellmeier_n2 (l2 : float) (B C : list float) : float :=
  fold_left (fun acc bc => fadd acc (sellmeier_term l2 bc)) (combine B C) one.

Definition sellmeier_reference (l2 : float) (B C : list float) : float :=
  fsqrt (sellmeier_n2 l2 B C).

(** The square of the wavelength as a binary64 value: what [l**2] contributes
    to a product or difference with a [float]. *)
Definition wavelength_squared (l : num) : result float :=
  x <- py_pow2 l ;;
  as_double x.





(** ** Exact values *)

(** The rational number a binary64 number stands for. *)
Definition Q_of_float (f : float) : Q :=
  match f with
  | S754_finite s m e => (inject_Z (cond_Zopp s (Z.pos m)) * Qpower 2 e)%Q
  | _ => 0%Q
  end.

(** A zero or a finite value: neither an infinity nor a NaN. *)
Definition is_number (f : float) : bool :=
  match f with
  | S754_zero _ | S754_finite _ _ _ => true
  | _ => false
  end.

(** The radicand of the equation in exact rational arithmetic:
    [1 + sum of Bi * lam^2 / (lam^2 - Ci)]. *)
Definition sellmeier_exact (lam : Q) (B C : list Q) : Q :=
  fold_left (fun acc bc =>
               (acc + fst bc * (lam * lam) / (lam * lam - snd bc))%Q)
            (combine B C) 1%Q.

(** No [Ci] equals [lam^2]: every quotient of the exact radicand is a genuine
    one. *)
Definition off_resonance (lam : Q) (C : list Q) : bool :=
  forallb (fun c => negb (Qeq_bool (lam * lam) c)) C.

(** [n * n] is [r] to within [r / 2^k]. *)
Definition squares_to (k : Z) (n r : Q) : bool :=
  Qle_bool (Qabs (n * n - r)) (r * Qpower 2 (- k)).

(** The error kind the specification calls a domain error: a zero
    denominator ([ZeroDivisionError]) or a negative radicand ([ValueError],
    "math domain error"). *)
Definition DomainError (e : exn) : Prop :=
  e = ZeroDivisionError \/ e = ValueError.

(** Whether a number is a zero, of either kind. *)
Definition num_is_zero (x : num) : bool :=
  match x with
  | PyInt z => z =? 0
  | PyFloat f => is_zero f
  end.


(** Python's [==] on numbers: an [int] and a [float] are compared by their
    exact values. *)
Definition float_eq_Z (f : float) (a : Z) : bool :=
  match f with
  | S754_zero _ => a =? 0
  | S754_finite s m e =>
      let v := if s then Z.neg m else Z.pos m in
      if 0 <=? e then a =? v * 2 ^ e else a * 2 ^ (- e) =? v
  | _ => false
  end.

Definition py_eq (x y : num) : bool :=
  match x, y with
  | PyInt a, PyInt b => a =? b
  | PyFloat f, PyFloat g => SFeqb f g
  | PyInt a, PyFloat f => float_eq_Z f a
  | PyFloat f, PyInt a => float_eq_Z f a
  end.

Fixpoint all2 {A B : Type} (p : A -> B -> bool) (xs : list A) (ys : list B)
    : bool :=
  match xs, ys with
  | [], [] => true
  | x :: xs', y :: ys' => p x y && all2 p xs' ys'
  | _, _ => false
  end.

(** ** The guard and the host's edits *)

(** The states of the guard. *)
Definition Idle (w : lens) : Prop := update w = true.
Definition Propagating (w : lens) : Prop := update w = false.

(** A piece of the handler is [guarded] when, started with the flag cleared,
    it ends (normally or not) with the flag still cleared. *)
Definition guarded {A : Type} (c : M A) : Prop :=
  forall w, update w = false ->
    match c w with
    | Done _ w' => update w' = false
    | Failed _ w' => update w' = false
    | OutOfFuel => False
    end.

(** An edit from outside: the host stores the new value of a property and
    then notifies the worker. *)
Inductive edit : Type :=
| EditMaterial (v : string)
| EditSellmeier (v : list float)
| EditRefractionIndex (v : float).

Definition edited (e : edit) : string :=
  match e with
  | EditMaterial _ => "Material"
  | EditSellmeier _ => "Sellmeier"
  | EditRefractionIndex _ => "RefractionIndex"
  end.

Definition store (e : edit) (w : lens) : lens :=
  match e with
  | EditMaterial v => with_Material v w
  | EditSellmeier v => with_Sellmeier v w
  | EditRefractionIndex v => with_RefractionIndex v w
  end.

(** The host delivers edits one at a time. *)
Fixpoint deliver (fuel : nat) (es : list edit) (w : lens) : outcome unit :=
  match es with
  | [] => Done tt w
  | e :: es' =>
      match onChanged fuel (edited e) (store e w) with
      | Done _ w' => deliver fuel es' w'
      | Failed x w' => Failed x w'
      | OutOfFuel => OutOfFuel
      end
  end.

(** ** Sample lenses *)

(** The floats a lens holds after ["Window glass"] was selected. *)
Definition window_glass : list float :=
  [ Z_quotient_to_float 103961212 (10 ^ 8);
    Z_quotient_to_float 231792344 (10 ^ 9);
    Z_quotient_to_float 101046945 (10 ^ 8);
    Z_quotient_to_float 600069867 (10 ^ 5);
    Z_quotient_to_float 200179144 (10 ^ 4);
    float_of_Z 103560653 ].

(** A lens as [LensWorker.__init__] leaves it before it selects a material:
    flag set, [Sellmeier] declared and empty, [RefractionIndex] 1. *)
Definition new_lens (material : string) : lens :=
  mkLens true material (Some []) one [].

(** A lens with window glass selected. *)
Definition glass_lens : lens :=
  mkLens true "Window glass" (Some window_glass) one [].

(** A lens whose first resonance [C1 = 336400] is the square of 580. *)
Definition resonant : list float :=
  [ one; zero; zero; float_of_Z 336400; zero; zero ].

Definition resonant_lens : lens :=
  mkLens true "Vacuum" (Some resonant) one [].

(** A feature that has no [Sellmeier] property, its flag set. *)
Definition bare_lens : lens := mkLens true "?" None one [].

(** ** The lens constructor *)

(** [LensWorker.__init__(fp, base, RefractionIndex, material)] on a fresh
    feature.  Until [fp.Proxy = self] the host has no worker to notify, so
    the first writes are plain stores: the flag cleared, [RefractionIndex]
    set from the argument, [Sellmeier] declared (an empty float list),
    [Material] declared with the catalog's names, of which the enumeration
    selects the first, and the flag set.  Then the host is given the worker,
    which it notifies of the change of [Proxy], and the material is
    selected: the one asked for when the catalog lists it, the sentinel
    otherwise. *)
Definition LensWorker_init (fuel : nat) (RefractionIndex : num)
    (material : string) : M unit :=
  fun w =>
    ((fun w => Done tt (with_update false w)) ;;;
     r <~ lift (as_double RefractionIndex) ;;
     (fun w => Done tt (with_RefractionIndex r w)) ;;;
     (fun w => Done tt (with_Sellmeier [] w)) ;;;
     (fun w => Done tt (with_Material (hd EmptyString material_names) w)) ;;;
     (fun w => Done tt (with_update true w)) ;;;
     onChanged fuel "Proxy" ;;;
     if existsb (String.eqb material) material_names
     then set_Material (onChanged fuel) material
     else set_Material (onChanged fuel) "?") w.

(** A feature before [LensWorker.__init__]: none of the lens properties is
    declared yet. *)
Definition fresh_feature : lens := mkLens false EmptyString None zero [].

(** ** The view provider *)

(** A view object: its visibility and the view objects it claims as
    children, named by their place in the scene. *)
Record view : Type := mkView {
  Visibility : bool;
  ClaimedChildren : list nat
}.

(** The view objects of a document. *)
Definition scene : Type := nat -> view.

(** [vp.Visibility = v] on the view object [vp]. *)
Definition set_Visibility (sc : scene) (vp : nat) (v : bool) : scene :=
  fun j =>
    if Nat.eqb j vp then mkView v (ClaimedChildren (sc j)) else sc j.

(** [OpticalObjectViewProvider.onChanged(fp, prop)]: the list of children is
    read once, the visibility of [fp] at every turn of the loop. *)
Definition ViewProvider_onChanged (fp : nat) (prop : string) (sc : scene)
    : scene :=
  if String.eqb prop "Visibility"
  then fold_left (fun sc vp => set_Visibility sc vp (Visibility (sc fp)))
                 (ClaimedChildren (sc fp)) sc
  else sc.

(** [OpticalObjectViewProvider.attach(vobj)]: it calls the handler with the
    empty property name. *)
Definition ViewProvider_attach (vobj : nat) (sc : scene) : scene :=
  ViewProvider_onChanged vobj EmptyString sc.

(** ** More sample values *)

(** [1.6]. *)
Definition one_point_six : float := Z_quotient_to_float 16 10.

(** The stored coefficients of Vacuum. *)
Definition vacuum : list float := [zero; zero; zero; zero; zero; zero].

(** The sodium line, 589.3 nm, as a [float] wavelength. *)
Definition sodium : num := literal 5893 1.

(** A lens whose material is a name the catalog only has in a comment. *)
Definition diamond_lens : lens := mkLens true "Diamond" (Some []) one [].

(** A lens after its index was entered by hand: the sentinel and no
    coefficients. *)
Definition custom_lens : lens := mkLens true "?" (Some []) one_point_six [].

(** A scene of three view objects: 0 claims 1 and 2 and is hidden, the
    others are shown. *)
Definition sample_scene : scene :=
  fun j =>
    match j with
    | O => mkView false [1%nat; 2%nat]
    | _ => mkView true []
    end.

(** ** The catalog as a dict *)

Lemma dict_getitem_In {V : Type} (d : list (string * V)) (key : string) (v : V) :
  dict_getitem d key = Ok v -> In (key, v) d.
Proof.
  induction d as [|[k' v'] d IH]; cbn [dict_getitem]; [discriminate|].
  destruct (String.eqb_spec key k') as [->|_].
  - intros [= ->]. left. reflexivity.
  - intros H. right. apply IH, H.
Qed.

Lemma dict_getitem_raises {V : Type} (d : list (string * V)) (key : string)
    (e : exn) :
  dict_getitem d key = Raise e -> e = KeyError /\ ~ In key (map fst d).
Proof.
  induction d as [|[k' v'] d IH]; cbn [dict_getitem map fst In].
  - intros [= <-]. split; [reflexivity|tauto].
  - destruct (String.eqb_spec key k') as [->|Hne]; [discriminate|].
    intros H. destruct (IH H) as [-> Hn]. split; [reflexivity|].
    intros [Hk|Hk]; [congruence|contradiction].
Qed.

Lemma dict_getitem_listed {V : Type} (d : list (string * V)) (key : string) :
  In key (map fst d) -> exists v, dict_getitem d key = Ok v.
Proof.
  intros Hin. destruct (dict_getitem d key) as [v|e] eqn:E; [eauto|].
  destruct (dict_getitem_raises d key e E) as [_ Hn]. contradiction.
Qed.

(** ** Arithmetic with a [float] operand *)

Lemma as_double_one : as_double (PyInt 1) = Ok one.
Proof. reflexivity. Qed.

Lemma py_mul_float (b : float) (y : num) (a : float) :
  as_double y = Ok a -> py_mul (PyFloat b) y = Ok (PyFloat (fmul b a)).
Proof.
  intros Hy. unfold py_mul, arith. cbn [as_double bind].
  destruct y; rewrite Hy; reflexivity.
Qed.

Lemma py_sub_float (x : num) (c : float) (a : float) :
  as_double x = Ok a -> py_sub x (PyFloat c) = Ok (PyFloat (fsub a c)).
Proof.
  intros Hx. unfold py_sub, arith.
  destruct x; rewrite Hx; reflexivity.
Qed.

Lemma py_truediv_float (n d : float) :
  py_truediv (PyFloat n) (PyFloat d) =
  if is_zero d then Raise ZeroDivisionError else Ok (PyFloat (fdiv n d)).
Proof. reflexivity. Qed.

Lemma py_add_one_float (t : float) :
  py_add (PyInt 1) (PyFloat t) = Ok (PyFloat (fadd one t)).
Proof. reflexivity. Qed.

Lemma py_add_float (s t : float) :
  py_add (PyFloat s) (PyFloat t) = Ok (PyFloat (fadd s t)).
Proof. reflexivity. Qed.

(** Rounding a non-negative mantissa never yields a NaN. *)
Lemma shr_1_nonneg (mrs : shr_record) :
  0 <= shr_m mrs -> 0 <= shr_m (shr_1 mrs).
Proof.
  destruct mrs as [m r s]. cbn [shr_m].
  destruct m as [|p|p]; [| |lia]; intros _.
  - cbn. lia.
  - destruct p; cbn; lia.
Qed.

Lemma iter_shr_1_nonneg (p : positive) :
  forall mrs, 0 <= shr_m mrs -> 0 <= shr_m (iter_pos shr_1 p mrs).
Proof.
  induction p as [p IH|p IH|]; intros mrs H; cbn [iter_pos].
  - apply IH, IH, shr_1_nonneg, H.
  - apply IH, IH, H.
  - apply shr_1_nonneg, H.
Qed.

Lemma shr_fexp_nonneg (m e : Z) (l : location) :
  0 <= m -> 0 <= shr_m (fst (shr_fexp prec emax m e l)).
Proof.
  intros H. unfold shr_fexp, shr.
  assert (H0 : 0 <= shr_m (shr_record_of_loc m l))
    by (destruct l as [|[ | | ]]; exact H).
  destruct (_ - e); cbn [fst]; auto using iter_shr_1_nonneg.
Qed.

Lemma round_nearest_even_nonneg (m : Z) (l : location) :
  0 <= m -> 0 <= round_nearest_even m l.
Proof.
  intros H. destruct l as [|[ | | ]]; cbn [round_nearest_even];
    try destruct (Z.even m); lia.
Qed.

Lemma binary_round_aux_not_nan (s : bool) (m e : Z) (l : location) :
  0 <= m -> is_nan (binary_round_aux prec emax s m e l) = false.
Proof.
  intros H. unfold binary_round_aux.
  pose proof (shr_fexp_nonneg m e l H) as H1.
  destruct (shr_fexp prec emax m e l) as [mrs' e']. cbn [fst] in H1.
  pose proof (shr_fexp_nonneg _ e' loc_Exact
                (round_nearest_even_nonneg _ (loc_of_shr_record mrs') H1)) as H2.
  destruct (shr_fexp prec emax _ e' loc_Exact) as [mrs'' e'']. cbn [fst] in H2.
  destruct (shr_m mrs'') as [|p|p]; [reflexivity| |lia].
  destruct (e'' <=? _); reflexivity.
Qed.

Lemma fsqrt_finite_not_nan (m : positive) (e : Z) :
  is_nan (fsqrt (S754_finite false m e)) = false.
Proof.
  unfold fsqrt, SFsqrt, SFsqrt_core_binary.
  match goal with |- context [Z.sqrtrem ?x] =>
    pose proof (Z.sqrtrem_sqrt x) as Hq; pose proof (Z.sqrt_nonneg x) as Hn;
    destruct (Z.sqrtrem x) as [q r] end.
  cbn [fst] in Hq. subst q. apply binary_round_aux_not_nan, Hn.
Qed.

(** [math.sqrt] on a [float] raises exactly when the argument is below zero. *)
Lemma math_sqrt_float (f : float) :
  math_sqrt (PyFloat f) =
  if SFltb f zero then Raise ValueError else Ok (PyFloat (fsqrt f)).
Proof.
  destruct f as [[|]|[|]| |[|] m e]; try reflexivity.
  unfold math_sqrt. cbn [as_double bind is_nan].
  rewrite fsqrt_finite_not_nan. reflexivity.
Qed.

(** One summand of the source expression, [b*l**2/(l**2 - c)], on [float]
    coefficients. *)
Lemma summand_float (l : num) (l2 b c : float) (K : num -> result num) :
  wavelength_squared l = Ok l2 ->
  (x <- py_pow2 l ;; n <- py_mul (PyFloat b) x ;;
   y <- py_pow2 l ;; d <- py_sub y (PyFloat c) ;;
   t <- py_truediv n d ;; K t) =
  if is_zero (fsub l2 c) then Raise ZeroDivisionError
  else K (PyFloat (sellmeier_term l2 (b, c))).
Proof.
  unfold wavelength_squared. intros H.
  destruct (py_pow2 l) as [x|e]; cbn [bind] in *; [|discriminate].
  rewrite (py_mul_float b x l2 H), (py_sub_float x c l2 H). cbn [bind].
  rewrite py_truediv_float. destruct (is_zero (fsub l2 c)); reflexivity.
Qed.

(** The engine on binary64 coefficients, one guard after the other. *)
Lemma refraction_index_floats (l : num) (l2 b1 b2 b3 c1 c2 c3 : float) :
  wavelength_squared l = Ok l2 ->
  refraction_index_from_sellmeier l
    (PySeq (map PyFloat [b1; b2; b3; c1; c2; c3])) =
  if is_zero (fsub l2 c1) then Raise ZeroDivisionError
  else if is_zero (fsub l2 c2) then Raise ZeroDivisionError
  else if is_zero (fsub l2 c3) then Raise ZeroDivisionError
  else if SFltb (sellmeier_n2 l2 [b1; b2; b3] [c1; c2; c3]) zero
  then Raise ValueError
  else Ok (PyFloat (sellmeier_reference l2 [b1; b2; b3] [c1; c2; c3])).
Proof.
  intros H. unfold refraction_index_from_sellmeier. cbn [map].
  rewrite (summand_float l l2 b1 c1 _ H).
  destruct (is_zero (fsub l2 c1)); [reflexivity|].
  rewrite py_add_one_float. cbn [bind].
  rewrite (summand_float l l2 b2 c2 _ H).
  destruct (is_zero (fsub l2 c2)); [reflexivity|].
  rewrite py_add_float. cbn [bind].
  rewrite (summand_float l l2 b3 c3 _ H).
  destruct (is_zero (fsub l2 c3)); [reflexivity|].
  rewrite py_add_float. cbn [bind].
  rewrite math_sqrt_float. reflexivity.
Qed.

(** ** Differences of binary64 values *)

(** The number of binary digits of a mantissa. *)
Lemma digits2_pos_bounds (p : positive) :
  2 ^ (Z.pos (digits2_pos p) - 1) <= Z.pos p < 2 ^ Z.pos (digits2_pos p).
Proof.
  induction p as [p IH|p IH|]; cbn [digits2_pos]; [| |cbn; lia];
    rewrite Pos2Z.inj_succ;
    replace (Z.succ (Z.pos (digits2_pos p)) - 1)
      with (Z.succ (Z.pos (digits2_pos p) - 1)) by lia;
    rewrite !Z.pow_succ_r by lia; lia.
Qed.

Lemma digits2_pos_shift (p d : positive) :
  digits2_pos (Pos.iter xO p d) = (digits2_pos p + d)%positive.
Proof.
  induction d as [|d IH] using Pos.peano_ind.
  - cbn. lia.
  - rewrite Pos.iter_succ. cbn [digits2_pos]. rewrite IH. lia.
Qed.

Lemma shr_1_half (mrs : shr_record) :
  0 <= shr_m mrs -> shr_m (shr_1 mrs) = shr_m mrs / 2.
Proof.
  destruct mrs as [m r s]. cbn [shr_m].
  destruct m as [|p|p]; [reflexivity| |lia]. intros _.
  destruct p as [p|p|]; cbn [shr_1 shr_m].
  - rewrite Pos2Z.inj_xI. apply Z.div_unique with 1; lia.
  - rewrite Pos2Z.inj_xO. apply Z.div_unique with 0; lia.
  - reflexivity.
Qed.

Lemma iter_shr_1_quotient (p : positive) :
  forall mrs, 0 <= shr_m mrs ->
    shr_m (iter_pos shr_1 p mrs) = shr_m mrs / 2 ^ Z.pos p.
Proof.
  assert (P : forall q : positive, 0 < 2 ^ Z.pos q)
    by (intros q; apply Z.pow_pos_nonneg; lia).
  induction p as [p IH|p IH|]; intros mrs H; cbn [iter_pos].
  - pose proof (shr_1_nonneg mrs H) as H1.
    pose proof (iter_shr_1_nonneg p _ H1) as H2.
    rewrite (IH _ H2), (IH _ H1), shr_1_half by exact H.
    pose proof (P p).
    rewrite !Z.div_div by lia. f_equal.
    replace (Z.pos p~1) with (1 + Z.pos p + Z.pos p) by lia.
    rewrite !Z.pow_add_r by lia. change (2 ^ 1) with 2. lia.
  - pose proof (iter_shr_1_nonneg p _ H) as H2.
    rewrite (IH _ H2), (IH _ H).
    pose proof (P p).
    rewrite Z.div_div by lia. f_equal.
    replace (Z.pos p~0) with (Z.pos p + Z.pos p) by lia.
    rewrite Z.pow_add_r by lia. reflexivity.
  - rewrite shr_1_half by exact H. reflexivity.
Qed.

Lemma fexp_ge_emin (e : Z) : emin <= fexp prec emax e.
Proof. unfold fexp, emin, SpecFloat.emin. lia. Qed.

(** Shifting a positive mantissa down to its precision leaves it positive. *)
Lemma shr_fexp_pos (m e : Z) (l : location) :
  0 < m -> emin <= e ->
  0 < shr_m (fst (shr_fexp prec emax m e l)) /\
  emin <= snd (shr_fexp prec emax m e l).
Proof.
  intros Hm He. unfold shr_fexp, shr.
  assert (H0 : shr_m (shr_record_of_loc m l) = m)
    by (destruct l as [|[ | | ]]; reflexivity).
  destruct m as [|p|p]; try lia. cbn [Zdigits2].
  pose proof (digits2_pos_bounds p) as Hd.
  remember (fexp prec emax (Z.pos (digits2_pos p) + e) - e) as n eqn:Hn.
  destruct n as [|q|q]; cbn [fst snd]; try (rewrite H0; lia).
  assert (Hq : Z.pos q <= Z.pos (digits2_pos p) - 1).
  { unfold fexp, emin, SpecFloat.emin, prec, emax in *. lia. }
  rewrite iter_shr_1_quotient by (rewrite H0; lia).
  rewrite H0. split; [|lia].
  apply Z.div_str_pos. split; [apply Z.pow_pos_nonneg; lia|].
  apply Z.le_trans with (2 ^ (Z.pos (digits2_pos p) - 1)); [|lia].
  apply Z.pow_le_mono_r; lia.
Qed.

Lemma round_nearest_even_pos (m : Z) (l : location) :
  0 < m -> 0 < round_nearest_even m l.
Proof.
  intros H. destruct l as [|[ | | ]]; cbn [round_nearest_even];
    try destruct (Z.even m); lia.
Qed.

Lemma binary_round_aux_not_zero (s : bool) (m e : Z) (l : location) :
  0 < m -> emin <= e -> is_zero (binary_round_aux prec emax s m e l) = false.
Proof.
  intros Hm He. unfold binary_round_aux.
  destruct (shr_fexp_pos m e l Hm He) as [H1 E1].
  destruct (shr_fexp prec emax m e l) as [mrs' e']. cbn [fst snd] in H1, E1.
  destruct (shr_fexp_pos _ e' loc_Exact
              (round_nearest_even_pos _ (loc_of_shr_record mrs') H1) E1)
    as [H2 _].
  destruct (shr_fexp prec emax _ e' loc_Exact) as [mrs'' e'']. cbn [fst] in H2.
  destruct (shr_m mrs'') as [|p|p]; try lia.
  destruct (e'' <=? _); reflexivity.
Qed.

Lemma binary_normalize_not_zero (m e : Z) :
  m <> 0 -> emin <= e -> is_zero (binary_normalize prec emax m e false) = false.
Proof.
  intros Hm He.
  assert (R : forall s p, is_zero (binary_round prec emax s p e) = false).
  { intros s p. unfold binary_round, shl_align.
    pose proof (fexp_ge_emin (Z.pos (digits2_pos p) + e)) as Hf.
    destruct (fexp prec emax (Z.pos (digits2_pos p) + e) - e);
      apply binary_round_aux_not_zero; lia. }
  destruct m as [|p|p]; [contradiction| |]; apply R.
Qed.

Lemma shl_align_fst (m : positive) (e e' : Z) :
  e' <= e ->
  Z.pos (fst (shl_align m e e')) = Z.pos m * 2 ^ (e - e') /\
  Z.pos (digits2_pos (fst (shl_align m e e'))) =
    Z.pos (digits2_pos m) + (e - e').
Proof.
  intros H. unfold shl_align. destruct (e' - e) as [|d|d] eqn:E; try lia.
  - replace (e - e') with 0 by lia. cbn [fst]. lia.
  - replace (e - e') with (Z.pos d) by lia. cbn [fst]. split.
    + change (Pos.iter xO m d) with (shift_pos d m).
      rewrite shift_pos_correct, Z.pow_pos_fold. lia.
    + rewrite digits2_pos_shift. lia.
Qed.

Lemma SFeqb_finite_refl (s : bool) (m : positive) (e : Z) :
  SFeqb (S754_finite s m e) (S754_finite s m e) = true.
Proof.
  unfold SFeqb, SFcompare. rewrite Z.compare_refl.
  change (PosDef.Pos.compare_cont Eq m m) with (Pos.compare m m).
  rewrite Pos.compare_refl. destruct s; reflexivity.
Qed.

(** Unequal binary64 values have a difference that is not zero: with
    [l**2 <> c] the denominator [l**2 - c] is not zero. *)
Lemma unequal_floats_nonzero_denominator (x c : float) :
  binary64 x = true -> binary64 c = true ->
  SFeqb x c = false -> is_zero (fsub x c) = false.
Proof.
  intros Vx Vc Hne.
  destruct x as [sx|sx| |sx mx ex], c as [sc|sc| |sc mc ec];
    try reflexivity; try discriminate Hne;
    try (destruct sx, sc; reflexivity).
  unfold binary64 in Vx, Vc. cbn [valid_binary] in Vx, Vc.
  unfold bounded, canonical_mantissa in Vx, Vc.
  apply andb_prop in Vx, Vc. destruct Vx as [Cx _], Vc as [Cc _].
  apply Z.eqb_eq in Cx, Cc.
  pose proof (fexp_ge_emin (Z.pos (digits2_pos mx) + ex)) as Ex.
  pose proof (fexp_ge_emin (Z.pos (digits2_pos mc) + ec)) as Ec.
  unfold fsub, SFsub. apply binary_normalize_not_zero; [|lia].
  destruct (shl_align_fst mx ex (Z.min ex ec)) as [Ax Dx]; [lia|].
  destruct (shl_align_fst mc ec (Z.min ex ec)) as [Ac Dc]; [lia|].
  intros D0.
  assert (Hs : sx = sc) by (destruct sx, sc; cbn [cond_Zopp] in D0; lia).
  subst sc.
  assert (HA : fst (shl_align mx ex (Z.min ex ec)) =
               fst (shl_align mc ec (Z.min ex ec)))
    by (destruct sx; cbn [cond_Zopp] in D0; lia).
  rewrite HA in Dx.
  assert (He : ex = ec) by (rewrite <- Cx, <- Cc; f_equal; lia).
  subst ec. rewrite Z.min_id, Z.sub_diag, Z.mul_1_r in Ax, Ac.
  rewrite Z.min_id in HA. rewrite HA in Ax.
  assert (Hm : mx = mc) by lia. subst mc.
  rewrite SFeqb_finite_refl in Hne. discriminate Hne.
Qed.

(** Equal finite operands give a zero difference: [l**2 == c] makes the
    denominator [l**2 - c] zero. *)
Lemma equal_floats_zero_denominator (x c : float) :
  is_inf x = false -> SFeqb x c = true -> is_zero (fsub x c) = true.
Proof.
  unfold SFeqb. intros Hinf Heq.
  destruct x as [sx|sx| |sx mx ex]; try discriminate;
    destruct c as [sc|sc| |sc mc ec]; cbn in Heq; try discriminate.
  - destruct sx, sc; reflexivity.
  - destruct sc; discriminate Heq.
  - destruct sc; discriminate Heq.
  - destruct sx; discriminate Heq.
  - destruct sx, sc; discriminate Heq.
  - change (PosDef.Pos.compare_cont Eq mx mc) with (Pos.compare mx mc) in Heq.
    assert (sx = sc /\ ex = ec /\ mx = mc) as (-> & -> & ->).
    { destruct sx, sc; try discriminate Heq;
        destruct (Z.compare_spec ex ec) as [He|He|He]; try discriminate Heq;
        destruct (Pos.compare mx mc) eqn:Hm; try discriminate Heq;
        apply Pos.compare_eq in Hm; auto. }
    unfold fsub, SFsub. rewrite Z.sub_diag. reflexivity.
Qed.

(** The engine never returns an [int]: its result comes from [math.sqrt]. *)
Lemma refraction_index_is_float (l : num) (s : pyval) (n : num) :
  refraction_index_from_sellmeier l s = Ok n -> exists f, n = PyFloat f.
Proof.
  unfold refraction_index_from_sellmeier.
  destruct s as [|[|b1 [|b2 [|b3 [|c1 [|c2 [|c3 [|x xs]]]]]]]];
    try discriminate.
  repeat match goal with
         | |- context [bind ?c _] =>
             destruct c; cbn [bind]; try discriminate
         end.
  unfold math_sqrt.
  destruct (as_double _); cbn [bind]; try discriminate.
  destruct (_ && _); try discriminate.
  intros [= <-]. eauto.
Qed.

Lemma py_truediv_zero_raises (n d : num) :
  num_is_zero d = true ->
  py_truediv n d = Raise ZeroDivisionError \/
  py_truediv n d = Raise OverflowError.
Proof.
  intros Hd. destruct n as [a|a], d as [b|b]; cbn [num_is_zero] in Hd.
  - apply Z.eqb_eq in Hd. subst b. left. reflexivity.
  - unfold py_truediv, as_double.
    destruct (is_inf (float_of_Z a)); cbn [bind]; [|rewrite Hd]; auto.
  - apply Z.eqb_eq in Hd. subst b. left. reflexivity.
  - unfold py_truediv. cbn [bind as_double]. rewrite Hd. auto.
Qed.

(** What the operations can raise. *)
Lemma as_double_raise (x : num) (e : exn) :
  as_double x = Raise e -> e = OverflowError.
Proof.
  destruct x as [z|f]; cbn [as_double]; [|discriminate].
  destruct (is_inf (float_of_Z z)); congruence.
Qed.

Lemma arith_raise iop fop (x y : num) (e : exn) :
  arith iop fop x y = Raise e -> e = OverflowError.
Proof.
  unfold arith. intros H.
  destruct x as [a|a], y as [b|b]; try discriminate H;
    repeat match type of H with
           | context [bind (as_double ?v) _] =>
               destruct (as_double v) eqn:?; cbn [bind] in H
           end;
    try discriminate H; injection H as <-; eauto using as_double_raise.
Qed.

Lemma py_pow2_raise (x : num) (e : exn) :
  py_pow2 x = Raise e -> e = OverflowError.
Proof.
  destruct x as [z|f]; cbn [py_pow2]; [discriminate|].
  unfold float_pow2. destruct f as [s|s| |s m ex]; cbn [bind]; try discriminate.
  destruct (SFeqb _ _); cbn [bind]; [discriminate|].
  destruct (is_inf _); cbn [bind]; congruence.
Qed.

Lemma py_truediv_raise (x y : num) (e : exn) :
  py_truediv x y = Raise e -> e = ZeroDivisionError \/ e = OverflowError.
Proof.
  unfold py_truediv, int_true_divide. intros H.
  destruct x as [a|a], y as [b|b];
    repeat match type of H with
           | context [bind (as_double ?v) _] =>
               destruct (as_double v) eqn:?; cbn [bind] in H
           | context [if ?c then _ else _] => destruct c; cbn [bind] in H
           end;
    try discriminate H; injection H as <-; eauto using as_double_raise.
Qed.

(** ** The square of a wavelength *)
















(** ** The dispersion engine: the claims *)


(** C4: for the all-zero sextuplet, which is the Vacuum entry of the
    catalog, and wavelength 580, [refraction_index_from_sellmeier] returns
    exactly [1.0]: on the tuple of [int]s as the catalog writes it, and on
    the floats a lens holds for it. *)
Theorem refraction_index_vacuum_is_one :
  dict_getitem getMaterials "Vacuum" =
    Ok (PySeq [PyInt 0; PyInt 0; PyInt 0; PyInt 0; PyInt 0; PyInt 0]) /\
  refraction_index_from_sellmeier (PyInt 580)
    (PySeq [PyInt 0; PyInt 0; PyInt 0; PyInt 0; PyInt 0; PyInt 0]) =
  Ok (PyFloat one) /\
  refraction_index_from_sellmeier (PyInt 580)
    (PySeq (map PyFloat [zero; zero; zero; zero; zero; zero])) =
  Ok (PyFloat one).
Proof. repeat split; reflexivity. Qed.

(** C5: for binary64 coefficients and a wavelength whose square is the
    finite binary64 value [l2], if [l2] equals some [Ci] (a zero denominator)
    or the sum under the square root is negative,
    [refraction_index_from_sellmeier] raises a domain error
    ([ZeroDivisionError] or [ValueError]) and so returns neither NaN nor an
    infinity. *)
Theorem refraction_index_domain_error
    (l : num) (l2 b1 b2 b3 c1 c2 c3 : float) :
  wavelength_squared l = Ok l2 ->
  is_inf l2 = false ->
  (SFeqb l2 c1 = true \/ SFeqb l2 c2 = true \/ SFeqb l2 c3 = true) \/
  SFltb (sellmeier_n2 l2 [b1; b2; b3] [c1; c2; c3]) zero = true ->
  exists e,
    refraction_index_from_sellmeier l
      (PySeq (map PyFloat [b1; b2; b3; c1; c2; c3])) = Raise e /\
    DomainError e.
Proof.
  intros Hl Hfin H.
  rewrite (refraction_index_floats l l2 b1 b2 b3 c1 c2 c3 Hl).
  unfold DomainError.
  destruct (is_zero (fsub l2 c1)) eqn:Z1; [eauto|].
  destruct (is_zero (fsub l2 c2)) eqn:Z2; [eauto|].
  destruct (is_zero (fsub l2 c3)) eqn:Z3; [eauto|].
  destruct H as [[H|[H|H]]|H];
    try (apply (equal_floats_zero_denominator _ _ Hfin) in H; congruence).
  rewrite H. eauto.
Qed.

(** With operands of any kind a zero denominator still makes the call raise:
    [ZeroDivisionError], unless an [int] beyond the binary64 range raised
    [OverflowError] on the way. *)
Lemma refraction_index_zero_denominator_raises
    (l l2 b1 b2 b3 c1 c2 c3 d : num) :
  py_pow2 l = Ok l2 ->
  py_sub l2 c1 = Ok d \/ py_sub l2 c2 = Ok d \/ py_sub l2 c3 = Ok d ->
  num_is_zero d = true ->
  refraction_index_from_sellmeier l (PySeq [b1; b2; b3; c1; c2; c3]) =
    Raise ZeroDivisionError \/
  refraction_index_from_sellmeier l (PySeq [b1; b2; b3; c1; c2; c3]) =
    Raise OverflowError.
Proof.
  intros Hl Hd Hz. unfold refraction_index_from_sellmeier.
  rewrite Hl. cbn [bind].
  destruct Hd as [Hd|[Hd|Hd]];
    repeat match goal with
      | |- context [bind (py_truediv ?n d) _] =>
          destruct (py_truediv_zero_raises n d Hz) as [-> | ->];
          cbn [bind]; auto
      | |- _ => progress (rewrite Hd; cbn [bind])
      | |- context [bind ?c _] =>
          let E := fresh "E" in
          destruct c as [?|?e] eqn:E; cbn [bind];
          [|first [apply arith_raise in E
                  |apply py_truediv_raise in E; destruct E as [E|E]];
            subst; auto]
      end.
Qed.

(** ** The reconciler: one notification *)

Arguments refraction_index_from_sellmeier : simpl never.
Arguments as_double : simpl never.
Arguments dict_getitem : simpl never.
Arguments mapM : simpl never.

(** With the flag cleared the handler returns at once. *)
Lemma onChanged_not_update (k : nat) (prop : string) (w : lens) :
  update w = false -> onChanged (S k) prop w = Done tt w.
Proof. intros H. cbn. unfold onChanged_body. rewrite H. reflexivity. Qed.

Lemma guarded_ret {A : Type} (a : A) : guarded (ret a).
Proof. intros w H. exact H. Qed.

Lemma guarded_lift {A : Type} (r : result A) : guarded (lift r).
Proof. intros w H. destruct r; exact H. Qed.

Lemma guarded_seq {A B : Type} (c : M A) (k : A -> M B) :
  guarded c -> (forall a, guarded (k a)) -> guarded (seq c k).
Proof.
  intros Hc Hk w H. unfold seq. specialize (Hc w H).
  destruct (c w) as [a w'|e w'|]; [apply Hk, Hc|exact Hc|exact Hc].
Qed.

Lemma guarded_when (b : bool) (c : M unit) : guarded c -> guarded (when b c).
Proof. destruct b; [auto|intros _; apply guarded_ret]. Qed.

Lemma guarded_get_Material : guarded get_Material.
Proof. intros w H. exact H. Qed.

Lemma guarded_get_Sellmeier : guarded get_Sellmeier.
Proof. intros w H. unfold get_Sellmeier. destruct (Sellmeier w); exact H. Qed.

Lemma guarded_call_dispersion (l : num) (s : pyval) :
  guarded (call_dispersion l s).
Proof.
  intros w H. unfold call_dispersion, lift.
  destruct (refraction_index_from_sellmeier l s); exact H.
Qed.

Section Guarded.

(** A notifier that does nothing while the flag is cleared, as the handler
    itself does. *)
Variable notify : string -> M unit.
Hypothesis notify_ignored :
  forall p w, update w = false -> notify p w = Done tt w.

Lemma set_Sellmeier_stores (xs : list num) (s : list float) (w : lens) :
  update w = false -> mapM as_double xs = Ok s ->
  set_Sellmeier notify (PySeq xs) w =
  Done tt (log (SetProperty "Sellmeier") (with_Sellmeier s w)).
Proof.
  intros H Hs. unfold set_Sellmeier. rewrite Hs.
  apply notify_ignored. exact H.
Qed.

Lemma set_RefractionIndex_stores (n : float) (w : lens) :
  update w = false ->
  set_RefractionIndex notify (PyFloat n) w =
  Done tt (log (SetProperty "RefractionIndex") (with_RefractionIndex n w)).
Proof. intros H. apply notify_ignored. exact H. Qed.

Lemma set_Material_sentinel_stores (w : lens) :
  update w = false ->
  set_Material notify "?" w =
  Done tt (log (SetProperty "Material") (with_Material "?" w)).
Proof. intros H. apply notify_ignored. exact H. Qed.

Lemma guarded_set_Sellmeier (v : pyval) : guarded (set_Sellmeier notify v).
Proof.
  intros w H. unfold set_Sellmeier. destruct v as [|xs]; [exact H|].
  destruct (mapM as_double xs); [|exact H].
  rewrite notify_ignored by exact H. exact H.
Qed.

Lemma guarded_set_RefractionIndex (v : num) :
  guarded (set_RefractionIndex notify v).
Proof.
  intros w H. unfold set_RefractionIndex. destruct (as_double v); [|exact H].
  rewrite notify_ignored by exact H. exact H.
Qed.

Lemma guarded_set_Material (v : string) : guarded (set_Material notify v).
Proof.
  intros w H. unfold set_Material. destruct (existsb _ _); [|exact H].
  rewrite notify_ignored by exact H. exact H.
Qed.

Lemma onChanged_body_branches (prop : string) (w : lens) (s : list float) :
  update w = true -> Sellmeier w = Some s ->
  onChanged_body notify prop w =
  match branches notify prop (with_update false w) with
  | Done _ w' => Done tt (with_update true w')
  | Failed e w' => Failed e w'
  | OutOfFuel => OutOfFuel
  end.
Proof.
  intros Hu Hs. unfold onChanged_body, seq. rewrite Hu. cbn. rewrite Hs.
  destruct (branches _ _ _); reflexivity.
Qed.

Lemma guarded_branches (prop : string) : guarded (branches notify prop).
Proof.
  unfold branches.
  repeat first
    [ apply guarded_seq | apply guarded_when
    | match goal with |- forall _, guarded _ => intro end
    | apply guarded_get_Material | apply guarded_get_Sellmeier
    | apply guarded_lift | apply guarded_call_dispersion
    | apply guarded_set_Sellmeier | apply guarded_set_RefractionIndex
    | apply guarded_set_Material ].
Qed.

Lemma trace_two {A : Type} (t : list A) (a b : A) :
  (t ++ [a]) ++ [b] = t ++ [a; b].
Proof. rewrite <- app_assoc. reflexivity. Qed.

Lemma trace_three {A : Type} (t : list A) (a b c : A) :
  ((t ++ [a]) ++ [b]) ++ [c] = t ++ [a; b; c].
Proof. rewrite <- !app_assoc. reflexivity. Qed.

(** The [RefractionIndex] branch. *)
Lemma branches_RefractionIndex (w : lens) :
  update w = false ->
  branches notify "RefractionIndex" w =
  Done tt (mkLens false "?" (Some []) (RefractionIndex w)
                  (trace w ++ [SetProperty "Material"; SetProperty "Sellmeier"])).
Proof.
  intros H. unfold branches, seq. cbn [String.eqb Ascii.eqb Bool.eqb when ret].
  rewrite (set_Material_sentinel_stores w H).
  rewrite (set_Sellmeier_stores [] []) by auto.
  unfold log, with_Sellmeier, with_Material. cbn.
  rewrite H, trace_two. reflexivity.
Qed.

(** The [Sellmeier] branch. *)
Lemma branches_Sellmeier (w : lens) (s : list float) :
  update w = false -> Sellmeier w = Some s ->
  branches notify "Sellmeier" w =
  match refraction_index_from_sellmeier (PyInt 580) (PySeq (map PyFloat s)) with
  | Ok (PyFloat n) =>
      Done tt (mkLens false (Material w) (Some s) n
                 (trace w ++ [CallDispersion; SetProperty "RefractionIndex"]))
  | Ok (PyInt z) =>
      set_RefractionIndex notify (PyInt z) (log CallDispersion w)
  | Raise e =>
      Failed e (mkLens false (Material w) (Some s) (RefractionIndex w)
                  (trace w ++ [CallDispersion]))
  end.
Proof.
  intros H Hs. unfold branches, seq.
  cbn [String.eqb Ascii.eqb Bool.eqb when ret].
  unfold get_Sellmeier, call_dispersion, lift. rewrite Hs.
  destruct (refraction_index_from_sellmeier _ _) as [[z|n]|e].
  - destruct (set_RefractionIndex _ _ _) as [[] ?|? ?|]; reflexivity.
  - rewrite set_RefractionIndex_stores by exact H.
    unfold log, with_RefractionIndex. cbn. rewrite H, Hs, trace_two.
    reflexivity.
  - unfold log. rewrite H, Hs. reflexivity.
Qed.

(** The [Material] branch on a catalog entry with coefficients. *)
Lemma branches_Material (w : lens) (cs : list num) (fs : list float) :
  update w = false ->
  dict_getitem getMaterials (Material w) = Ok (PySeq cs) ->
  mapM as_double cs = Ok fs ->
  branches notify "Material" w =
  match refraction_index_from_sellmeier (PyInt 580) (PySeq (map PyFloat fs)) with
  | Ok (PyFloat n) =>
      Done tt (mkLens false (Material w) (Some fs) n
                 (trace w ++ [SetProperty "Sellmeier"; CallDispersion;
                              SetProperty "RefractionIndex"]))
  | Ok (PyInt z) =>
      set_RefractionIndex notify (PyInt z)
        (log CallDispersion (log (SetProperty "Sellmeier") (with_Sellmeier fs w)))
  | Raise e =>
      Failed e (mkLens false (Material w) (Some fs) (RefractionIndex w)
                  (trace w ++ [SetProperty "Sellmeier"; CallDispersion]))
  end.
Proof.
  intros H Hm Hfs. unfold branches, seq.
  cbn [String.eqb Ascii.eqb Bool.eqb when ret].
  unfold get_Material, lift at 1. rewrite Hm.
  rewrite (set_Sellmeier_stores cs fs) by assumption.
  unfold get_Sellmeier, call_dispersion, lift. cbn [Sellmeier log with_Sellmeier].
  destruct (refraction_index_from_sellmeier _ _) as [[z|n]|e].
  - unfold log, with_Sellmeier.
    destruct (set_RefractionIndex _ _ _) as [[] ?|? ?|]; reflexivity.
  - rewrite set_RefractionIndex_stores by exact H.
    unfold log, with_RefractionIndex. cbn. rewrite H, trace_three.
    reflexivity.
  - unfold log, with_Sellmeier. cbn. rewrite H, trace_two. reflexivity.
Qed.

(** The [Material] branch on the sentinel: the table holds [None] for it,
    and the write of [None] to the float list fails. *)
Lemma branches_Material_None (w : lens) :
  dict_getitem getMaterials (Material w) = Ok PyNone ->
  branches notify "Material" w = Failed TypeError w.
Proof.
  intros Hm. unfold branches, seq.
  cbn [String.eqb Ascii.eqb Bool.eqb when ret].
  unfold get_Material, lift. rewrite Hm. reflexivity.
Qed.

End Guarded.

(** ** The reconciler: the claims *)

Lemma onChanged_step (k : nat) (prop : string) (w : lens) (s : list float) :
  update w = true -> Sellmeier w = Some s ->
  onChanged (S (S k)) prop w =
  match branches (onChanged (S k)) prop (with_update false w) with
  | Done _ w' => Done tt (with_update true w')
  | Failed e w' => Failed e w'
  | OutOfFuel => OutOfFuel
  end.
Proof. exact (onChanged_body_branches (onChanged (S k)) prop w s). Qed.

(** Two levels of nesting are all a notification ever needs: with that much
    fuel the handler always ends. *)
Lemma onChanged_terminates (k : nat) (prop : string) (w : lens) :
  onChanged (S (S k)) prop w <> OutOfFuel.
Proof.
  destruct (update w) eqn:Hu.
  - destruct (Sellmeier w) as [s|] eqn:Hs.
    + rewrite (onChanged_step k prop w s Hu Hs).
      pose proof (guarded_branches (onChanged (S k)) (onChanged_not_update k)
                    prop (with_update false w) eq_refl) as G.
      destruct (branches _ _ _); [discriminate|discriminate|contradiction].
    + cbn. unfold onChanged_body. rewrite Hu. cbn. rewrite Hs. discriminate.
  - rewrite onChanged_not_update by exact Hu. discriminate.
Qed.

(** C1 (what the code does): when [Material] changes to the sentinel ["?"]
    with the guard idle, the handler looks the sentinel up, gets [None], and
    the write of [None] to [Sellmeier] raises [TypeError]: the engine is not
    called and [RefractionIndex] keeps its value, but the call fails and the
    flag stays cleared. *)
Theorem Material_sentinel_raises (k : nat) (w : lens) (s : list float) :
  Idle w -> Sellmeier w = Some s -> Material w = "?" ->
  onChanged (S (S k)) "Material" w = Failed TypeError (with_update false w).
Proof.
  intros Hu Hs Hm. rewrite (onChanged_step k _ w s Hu Hs).
  rewrite branches_Material_None; [reflexivity|].
  cbn. rewrite Hm. reflexivity.
Qed.

(** C2 (amended): an exception raised during a propagation reaches the
    caller and leaves the flag cleared; in particular an error of the
    dispersion engine on the stored coefficients is passed on unchanged. *)
Theorem error_reaches_caller_flag_cleared (k : nat) (prop : string) (w : lens) :
  Idle w ->
  (forall e w', onChanged (S (S k)) prop w = Failed e w' -> Propagating w') /\
  (forall s e,
      Sellmeier w = Some s ->
      refraction_index_from_sellmeier (PyInt 580) (PySeq (map PyFloat s))
        = Raise e ->
      onChanged (S (S k)) "Sellmeier" w =
      Failed e (mkLens false (Material w) (Some s) (RefractionIndex w)
                       (trace w ++ [CallDispersion]))).
Proof.
  intros Hu. split.
  - intros e w' H. destruct (Sellmeier w) as [s|] eqn:Hs.
    + rewrite (onChanged_step k prop w s Hu Hs) in H.
      pose proof (guarded_branches (onChanged (S k)) (onChanged_not_update k)
                    prop (with_update false w) eq_refl) as G.
      destruct (branches _ _ _); [discriminate H| |discriminate H].
      injection H as <- <-. exact G.
    + cbn in H. unfold onChanged_body in H. rewrite Hu in H. cbn in H.
      rewrite Hs in H. discriminate H.
  - intros s e Hs He. rewrite (onChanged_step k _ w s Hu Hs).
    rewrite (branches_Sellmeier (onChanged (S k)) (onChanged_not_update k)
               (with_update false w) s eq_refl Hs).
    rewrite He. reflexivity.
Qed.

(** C6: a notification that arrives while the flag is cleared is ignored:
    the handler returns at once and the lens, its trace of writes and engine
    calls included, is as it was.  One level of fuel is enough, so nothing is
    notified in turn. *)
Theorem onChanged_while_propagating_ignored (k : nat) (prop : string) (w : lens) :
  Propagating w -> onChanged (S k) prop w = Done tt w.
Proof. exact (onChanged_not_update k prop w). Qed.

(** C7: when [RefractionIndex] is changed with the guard idle, whatever the
    lens held before, the handler sets [Material] to the sentinel ["?"] and
    [Sellmeier] to the empty list (and returns to idle). *)
Theorem RefractionIndex_changed_sets_sentinel (k : nat) (w : lens) (s : list float) :
  Idle w -> Sellmeier w = Some s ->
  onChanged (S (S k)) "RefractionIndex" w =
  Done tt (mkLens true "?" (Some []) (RefractionIndex w)
             (trace w ++ [SetProperty "Material"; SetProperty "Sellmeier"])).
Proof.
  intros Hu Hs. rewrite (onChanged_step k _ w s Hu Hs).
  rewrite (branches_RefractionIndex (onChanged (S k)) (onChanged_not_update k))
    by reflexivity.
  reflexivity.
Qed.

(** C8: when [Sellmeier] is changed with the guard idle, the handler calls
    the dispersion engine on the stored coefficients at 580 nm and, when it
    returns, stores its result in [RefractionIndex]; [Material] is left as
    it was, whether the engine returns or raises. *)
Theorem Sellmeier_changed_recomputes_index (k : nat) (w : lens) (s : list float) :
  Idle w -> Sellmeier w = Some s ->
  match refraction_index_from_sellmeier (PyInt 580) (PySeq (map PyFloat s)) with
  | Ok n =>
      exists f, n = PyFloat f /\
      onChanged (S (S k)) "Sellmeier" w =
      Done tt (mkLens true (Material w) (Some s) f
                 (trace w ++ [CallDispersion; SetProperty "RefractionIndex"]))
  | Raise e =>
      onChanged (S (S k)) "Sellmeier" w =
      Failed e (mkLens false (Material w) (Some s) (RefractionIndex w)
                  (trace w ++ [CallDispersion]))
  end.
Proof.
  intros Hu Hs. rewrite (onChanged_step k _ w s Hu Hs).
  rewrite (branches_Sellmeier (onChanged (S k)) (onChanged_not_update k)
             (with_update false w) s eq_refl Hs).
  destruct (refraction_index_from_sellmeier _ _) as [n|e] eqn:E;
    [|reflexivity].
  destruct (refraction_index_is_float _ _ _ E) as [f ->].
  exists f. split; reflexivity.
Qed.

Lemma entry_PySeq_inj (k k' : string) (xs ys : list num) :
  (k, PySeq xs) = (k', PySeq ys) -> k = k' /\ xs = ys.
Proof. intros [= -> ->]. split; reflexivity. Qed.

Lemma entry_None_not_PySeq (k k' : string) (ys : list num) :
  (k, PyNone) = (k', PySeq ys) -> False.
Proof. discriminate. Qed.

(** C9: for every catalog material [m] with coefficients (the sentinel has
    none), a [Material]-changed notification on a lens whose material is [m]
    completes, and afterwards [Sellmeier] holds the coefficients the table
    stores for [m] (as floats of exactly the same value) and
    [RefractionIndex] is the dispersion engine's result on them at 580 nm. *)
Theorem Material_changed_restores_invariant
    (k : nat) (w : lens) (s0 : list float) (m : string) (cs : list num) :
  Idle w -> Sellmeier w = Some s0 -> Material w = m ->
  dict_getitem getMaterials m = Ok (PySeq cs) ->
  exists fs n,
    mapM as_double cs = Ok fs /\
    all2 py_eq cs (map PyFloat fs) = true /\
    refraction_index_from_sellmeier (PyInt 580) (PySeq (map PyFloat fs))
      = Ok (PyFloat n) /\
    onChanged (S (S k)) "Material" w =
    Done tt (mkLens true m (Some fs) n
               (trace w ++ [SetProperty "Sellmeier"; CallDispersion;
                            SetProperty "RefractionIndex"])).
Proof.
  intros Hu Hs Hm Hd. subst m.
  pose proof (dict_getitem_In _ _ _ Hd) as Hin.
  assert (Hstep : forall fs n,
    mapM as_double cs = Ok fs ->
    refraction_index_from_sellmeier (PyInt 580) (PySeq (map PyFloat fs))
      = Ok (PyFloat n) ->
    onChanged (S (S k)) "Material" w =
    Done tt (mkLens true (Material w) (Some fs) n
               (trace w ++ [SetProperty "Sellmeier"; CallDispersion;
                            SetProperty "RefractionIndex"]))).
  { intros fs n Hfs Hn. rewrite (onChanged_step k _ w s0 Hu Hs).
    rewrite (branches_Material (onChanged (S k)) (onChanged_not_update k)
               (with_update false w) cs fs eq_refl Hd Hfs).
    rewrite Hn. reflexivity. }
  unfold getMaterials in Hin. cbn [In] in Hin.
  repeat (destruct Hin as [Hin|Hin]); try contradiction;
    first [ apply entry_None_not_PySeq in Hin; contradiction
          | apply entry_PySeq_inj in Hin; destruct Hin as [_ <-] ];
    match goal with
    | |- exists fs n, mapM as_double ?cs = Ok fs /\ _ =>
        let r := eval vm_compute in (mapM as_double cs) in
        match r with
        | Ok ?fs =>
            exists fs;
            let r2 := eval vm_compute in
              (refraction_index_from_sellmeier (PyInt 580)
                 (PySeq (map PyFloat fs))) in
            match r2 with
            | Ok (PyFloat ?n) =>
                exists n;
                assert (H1 : mapM as_double cs = Ok fs)
                  by (vm_compute; reflexivity);
                assert (H2 : refraction_index_from_sellmeier (PyInt 580)
                               (PySeq (map PyFloat fs)) = Ok (PyFloat n))
                  by (vm_compute; reflexivity);
                split; [exact H1|];
                split; [vm_compute; reflexivity|];
                split; [exact H2|exact (Hstep fs n H1 H2)]
            end
        end
    end.
Qed.

Lemma deliver_while_propagating (j : nat) (es : list edit) :
  forall w, update w = false ->
    deliver (S j) es w = Done tt (fold_left (fun w e => store e w) es w) /\
    update (fold_left (fun w e => store e w) es w) = false.
Proof.
  induction es as [|e es IH]; intros w H; cbn [deliver fold_left].
  - split; [reflexivity|exact H].
  - assert (H' : update (store e w) = false) by (destruct e; exact H).
    rewrite onChanged_not_update by exact H'. apply IH, H'.
Qed.

(** C10: with the guard idle on a lens that has no [Sellmeier] property, the
    handler clears the flag and returns without setting it again; from then
    on every edit is stored by the host and its notification ignored, the
    flag staying cleared. *)
Theorem onChanged_without_Sellmeier_locks (k : nat) (prop : string) (w : lens) :
  Idle w -> Sellmeier w = None ->
  onChanged (S k) prop w = Done tt (with_update false w) /\
  forall (j : nat) (es : list edit),
    deliver (S j) es (with_update false w) =
      Done tt (fold_left (fun w e => store e w) es (with_update false w)) /\
    Propagating (fold_left (fun w e => store e w) es (with_update false w)).
Proof.
  intros Hu Hs. split.
  - cbn. unfold onChanged_body. rewrite Hu. cbn. rewrite Hs. reflexivity.
  - intros j es. apply deliver_while_propagating. reflexivity.
Qed.

(** ** The dispersion engine: further properties *)

Lemma float_pow2_opp (f : float) :
  float_pow2 (SFopp f) = float_pow2 f.
Proof. destruct f as [s|s| |s m e]; reflexivity. Qed.

Lemma py_pow2_neg (l : num) : py_pow2 (py_neg l) = py_pow2 l.
Proof.
  destruct l as [z|f]; cbn [py_neg py_pow2].
  - rewrite !Z.pow_2_r, Z.mul_opp_opp. reflexivity.
  - rewrite float_pow2_opp. reflexivity.
Qed.

(** X4: the sign of the wavelength never matters: the engine sees the
    wavelength only through its square. *)
Theorem refraction_index_wavelength_sign (l : num) (s : pyval) :
  refraction_index_from_sellmeier (py_neg l) s =
  refraction_index_from_sellmeier l s.
Proof.
  unfold refraction_index_from_sellmeier. rewrite !py_pow2_neg. reflexivity.
Qed.

(** A value rounded with the positive sign is not below zero. *)
Lemma binary_round_aux_not_negative (m e : Z) (l : location) :
  SFltb (binary_round_aux prec emax false m e l) zero = false.
Proof.
  unfold binary_round_aux.
  destruct (shr_fexp prec emax m e l) as [mrs' e'].
  destruct (shr_fexp prec emax _ e' loc_Exact) as [mrs'' e''].
  destruct (shr_m mrs'') as [|p|p]; try reflexivity.
  destruct (e'' <=? _); reflexivity.
Qed.

Lemma fsqrt_not_negative (f : float) : SFltb (fsqrt f) zero = false.
Proof.
  destruct f as [[|]|[|]| |[|] m e]; try reflexivity.
  unfold fsqrt, SFsqrt.
  destruct (SFsqrt_core_binary prec emax (Z.pos m) e) as [[mz ez] lz].
  apply binary_round_aux_not_negative.
Qed.

(** X5: whatever the coefficients, a result the engine returns is a [float]
    that is not below zero (it can be a NaN, which compares below
    nothing). *)
Theorem refraction_index_never_negative (l : num) (s : pyval) (n : num) :
  refraction_index_from_sellmeier l s = Ok n ->
  exists f, n = PyFloat f /\ SFltb f zero = false.
Proof.
  unfold refraction_index_from_sellmeier.
  destruct s as [|[|b1 [|b2 [|b3 [|c1 [|c2 [|c3 [|x xs]]]]]]]];
    try discriminate.
  repeat match goal with
         | |- context [bind ?c _] =>
             destruct c; cbn [bind]; try discriminate
         end.
  unfold math_sqrt.
  destruct (as_double _) as [g|]; cbn [bind]; try discriminate.
  destruct (_ && _); try discriminate.
  intros [= <-]. exists (fsqrt g). split; [reflexivity|].
  apply fsqrt_not_negative.
Qed.

Lemma math_sqrt_raise (x : num) (e : exn) :
  math_sqrt x = Raise e -> e = ValueError \/ e = OverflowError.
Proof.
  unfold math_sqrt. destruct (as_double x) as [g|e'] eqn:E; cbn [bind].
  - destruct (_ && _); [|discriminate]. intros [= <-]. auto.
  - intros [= <-]. right. exact (as_double_raise _ _ E).
Qed.

(** X7: on a sequence the engine raises nothing but [ValueError] (a wrong
    number of coefficients, a negative radicand), [ZeroDivisionError] (a
    zero denominator) and [OverflowError] (an [int] or a square beyond the
    float range). *)
Theorem refraction_index_raises_only (l : num) (xs : list num) (e : exn) :
  refraction_index_from_sellmeier l (PySeq xs) = Raise e ->
  e = ValueError \/ e = ZeroDivisionError \/ e = OverflowError.
Proof.
  unfold refraction_index_from_sellmeier.
  destruct xs as [|b1 [|b2 [|b3 [|c1 [|c2 [|c3 [|x xs]]]]]]];
    try (intros [= <-]; auto).
  repeat match goal with
         | |- context [bind ?c _] =>
             let E := fresh "E" in
             destruct c as [?|?e] eqn:E; cbn [bind];
             [|intros [= <-];
               first [ apply py_pow2_raise in E
                     | apply arith_raise in E
                     | apply py_truediv_raise in E; destruct E as [E|E] ];
               subst; auto]
         end.
  intros H. apply math_sqrt_raise in H. tauto.
Qed.

(** X8: Vacuum has no dispersion: on the six zero coefficients a lens holds
    for it, the engine returns exactly [1.0] at every wavelength whose square
    is finite and not zero. *)
Theorem vacuum_has_no_dispersion
    (l : num) (l2 : float) (s : bool) (m : positive) (e : Z) :
  wavelength_squared l = Ok l2 ->
  l2 = S754_finite s m e ->
  refraction_index_from_sellmeier l (PySeq (map PyFloat vacuum)) =
  Ok (PyFloat one).
Proof.
  intros Hl ->. unfold vacuum.
  rewrite (refraction_index_floats l _ zero zero zero zero zero zero Hl).
  destruct s; reflexivity.
Qed.

(** The denominator is zero exactly when the square of the wavelength
    equals the resonance. *)
Lemma zero_denominator_iff (x c : float) :
  binary64 x = true -> binary64 c = true -> is_inf x = false ->
  is_zero (fsub x c) = SFeqb x c.
Proof.
  intros Vx Vc Hfin. destruct (SFeqb x c) eqn:E.
  - apply equal_floats_zero_denominator; assumption.
  - apply unequal_floats_nonzero_denominator; assumption.
Qed.

(** X9: the engine's outcome on well-formed floats, in full: with [l2] the
    finite square of the wavelength, it raises [ZeroDivisionError] exactly
    when [l2] equals one of the [Ci], else [ValueError] exactly when the
    radicand is negative, and else returns the reference formula. *)
Theorem refraction_index_outcome
    (l : num) (l2 b1 b2 b3 c1 c2 c3 : float) :
  wavelength_squared l = Ok l2 ->
  binary64 l2 = true -> is_inf l2 = false ->
  binary64 c1 = true -> binary64 c2 = true -> binary64 c3 = true ->
  refraction_index_from_sellmeier l
    (PySeq (map PyFloat [b1; b2; b3; c1; c2; c3])) =
  if SFeqb l2 c1 || SFeqb l2 c2 || SFeqb l2 c3
  then Raise ZeroDivisionError
  else if SFltb (sellmeier_n2 l2 [b1; b2; b3] [c1; c2; c3]) zero
  then Raise ValueError
  else Ok (PyFloat (sellmeier_reference l2 [b1; b2; b3] [c1; c2; c3])).
Proof.
  intros Hl V Hfin V1 V2 V3.
  rewrite (refraction_index_floats l l2 b1 b2 b3 c1 c2 c3 Hl).
  rewrite !zero_denominator_iff by assumption.
  destruct (SFeqb l2 c1), (SFeqb l2 c2), (SFeqb l2 c3); reflexivity.
Qed.

(** ** The catalog: further properties *)

Lemma entry_None_key (k k' : string) :
  (k, PyNone) = (k', PyNone) -> k' = k.
Proof. intros [= ->]. reflexivity. Qed.

Lemma entry_PySeq_not_None (k k' : string) (xs : list num) :
  (k, PySeq xs) = (k', PyNone) -> False.
Proof. discriminate. Qed.

(** Every catalog entry with coefficients: six numbers, all of them floats
    after conversion, on which the engine at 580 nm returns an index from
    [1.0] up to, but not reaching, [1.6]. *)
Lemma catalog_entry_computes (m : string) (cs : list num) :
  dict_getitem getMaterials m = Ok (PySeq cs) ->
  exists fs n,
    List.length cs = 6%nat /\
    mapM as_double cs = Ok fs /\
    refraction_index_from_sellmeier (PyInt 580) (PySeq (map PyFloat fs))
      = Ok (PyFloat n) /\
    SFleb one n = true /\ SFltb n one_point_six = true.
Proof.
  intros Hd. pose proof (dict_getitem_In _ _ _ Hd) as Hin.
  unfold getMaterials in Hin. cbn [In] in Hin.
  repeat (destruct Hin as [Hin|Hin]); try contradiction;
    first [ apply entry_None_not_PySeq in Hin; contradiction
          | apply entry_PySeq_inj in Hin; destruct Hin as [_ <-] ];
    match goal with
    | |- exists fs n, _ /\ mapM as_double ?cs = Ok fs /\ _ =>
        let r := eval vm_compute in (mapM as_double cs) in
        match r with
        | Ok ?fs =>
            exists fs;
            let r2 := eval vm_compute in
              (refraction_index_from_sellmeier (PyInt 580)
                 (PySeq (map PyFloat fs))) in
            match r2 with
            | Ok (PyFloat ?n) =>
                exists n; repeat split; vm_compute; reflexivity
            end
        end
    end.
Qed.

Lemma getMaterials_names_lookup (m : string) :
  (exists v, dict_getitem getMaterials m = Ok v) <-> In m material_names.
Proof.
  unfold material_names. split.
  - intros [v Hv]. apply dict_getitem_In in Hv.
    apply (in_map fst) in Hv. exact Hv.
  - apply dict_getitem_listed.
Qed.

(** X1: a name is offered by the [Material] enumeration, which lists the keys
    of the catalog, exactly when its lookup in the catalog succeeds; the
    lookup of any other name raises [KeyError]. *)
Theorem getMaterials_lookup_iff_listed (m : string) :
  (In m material_names <-> exists v, dict_getitem getMaterials m = Ok v) /\
  (~ In m material_names <-> dict_getitem getMaterials m = Raise KeyError).
Proof.
  unfold material_names. split; split.
  - apply dict_getitem_listed.
  - intros [v Hv]. apply dict_getitem_In in Hv.
    apply (in_map fst) in Hv. exact Hv.
  - intros Hn. destruct (dict_getitem getMaterials m) as [v|e] eqn:E.
    + apply dict_getitem_In, (in_map fst) in E. contradiction.
    + destruct (dict_getitem_raises _ _ _ E) as [-> _]. reflexivity.
  - intros E. apply (dict_getitem_raises _ _ _ E).
Qed.

(** X2: the sentinel ["?"] is the only catalog entry without data; every
    other entry unpacks into exactly six numbers, each of which converts to
    a float. *)
Theorem catalog_entries_unpack (m : string) (v : pyval) :
  dict_getitem getMaterials m = Ok v ->
  (v = PyNone /\ m = "?") \/
  (exists cs fs,
      v = PySeq cs /\ List.length cs = 6%nat /\ mapM as_double cs = Ok fs).
Proof.
  intros Hd. destruct v as [|cs].
  - left. split; [reflexivity|].
    apply dict_getitem_In in Hd. unfold getMaterials in Hd. cbn [In] in Hd.
    repeat (destruct Hd as [Hd|Hd]); try contradiction;
      first [ apply entry_None_key in Hd; exact Hd
            | apply entry_PySeq_not_None in Hd; contradiction ].
  - right. destruct (catalog_entry_computes m cs Hd)
      as (fs & n & Hlen & Hfs & _).
    exists cs, fs. auto.
Qed.

(** X3: for every catalog material with coefficients the engine at 580 nm
    returns an index [n] with [1.0 <= n < 1.6]. *)
Theorem catalog_indices_in_range (m : string) (cs : list num) :
  dict_getitem getMaterials m = Ok (PySeq cs) ->
  exists fs n,
    mapM as_double cs = Ok fs /\
    refraction_index_from_sellmeier (PyInt 580) (PySeq (map PyFloat fs))
      = Ok (PyFloat n) /\
    SFleb one n = true /\ SFltb n one_point_six = true.
Proof.
  intros Hd. destruct (catalog_entry_computes m cs Hd)
    as (fs & n & _ & Hfs & Hn & Hlo & Hhi).
  exists fs, n. auto.
Qed.

(** X21: for every catalog material with coefficients, the index [n] the
    engine returns at 580 nm agrees with the Sellmeier equation evaluated in
    exact rational arithmetic on the stored coefficients: no [Ci] is at the
    resonance, and [n * n] is the exact radicand to within one part in
    [2^51], which is 15 significant digits of the index. *)
Theorem catalog_indices_match_exact_equation (m : string) (cs : list num) :
  dict_getitem getMaterials m = Ok (PySeq cs) ->
  exists fs n,
    mapM as_double cs = Ok fs /\
    refraction_index_from_sellmeier (PyInt 580) (PySeq (map PyFloat fs))
      = Ok (PyFloat n) /\
    forallb is_number (n :: fs) = true /\
    off_resonance 580 (map Q_of_float (skipn 3 fs)) = true /\
    squares_to 51 (Q_of_float n)
      (sellmeier_exact 580 (map Q_of_float (firstn 3 fs))
                           (map Q_of_float (skipn 3 fs))) = true.
Proof.
  intros Hd. pose proof (dict_getitem_In _ _ _ Hd) as Hin.
  unfold getMaterials in Hin. cbn [In] in Hin.
  repeat (destruct Hin as [Hin|Hin]); try contradiction;
    first [ apply entry_None_not_PySeq in Hin; contradiction
          | apply entry_PySeq_inj in Hin; destruct Hin as [_ <-] ];
    match goal with
    | |- exists fs n, mapM as_double ?cs = Ok fs /\ _ =>
        let r := eval vm_compute in (mapM as_double cs) in
        match r with
        | Ok ?fs =>
            exists fs;
            let r2 := eval vm_compute in
              (refraction_index_from_sellmeier (PyInt 580)
                 (PySeq (map PyFloat fs))) in
            match r2 with
            | Ok (PyFloat ?n) =>
                exists n; repeat split; vm_compute; reflexivity
            end
        end
    end.
Qed.

(** ** The reconciler: every notification in closed form *)

Ltac run_branches :=
  unfold branches, seq, when, ret, lift, get_Material, get_Sellmeier,
    call_dispersion, set_Sellmeier, set_RefractionIndex, set_Material;
  cbn [String.eqb Ascii.eqb Bool.eqb].

Lemma branches_Material_eq (k : nat) (w : lens) :
  update w = false ->
  branches (onChanged (S k)) "Material" w =
  match dict_getitem getMaterials (Material w) with
  | Raise e => Failed e w
  | Ok PyNone => Failed TypeError w
  | Ok (PySeq cs) =>
      match mapM as_double cs with
      | Raise e => Failed e w
      | Ok fs =>
          let w2 := mkLens false (Material w) (Some fs) (RefractionIndex w)
                      (trace w ++ [SetProperty "Sellmeier"; CallDispersion]) in
          match refraction_index_from_sellmeier (PyInt 580)
                  (PySeq (map PyFloat fs)) with
          | Raise e => Failed e w2
          | Ok n =>
              match as_double n with
              | Raise e => Failed e w2
              | Ok f =>
                  Done tt (mkLens false (Material w) (Some fs) f
                             (trace w ++ [SetProperty "Sellmeier";
                                          CallDispersion;
                                          SetProperty "RefractionIndex"]))
              end
          end
      end
  end.
Proof.
  intros H. run_branches.
  destruct (dict_getitem getMaterials (Material w)) as [[|cs]|e];
    try reflexivity.
  destruct (mapM as_double cs) as [fs|e]; [|reflexivity].
  rewrite onChanged_not_update by exact H.
  unfold lift, log, with_Sellmeier, with_RefractionIndex.
  cbn [update Material Sellmeier RefractionIndex trace].
  rewrite H, trace_two.
  destruct (refraction_index_from_sellmeier _ _) as [n|e]; [|reflexivity].
  destruct (as_double n) as [f|e]; [|reflexivity].
  rewrite onChanged_not_update by reflexivity.
  cbn [update Material Sellmeier RefractionIndex trace].
  rewrite <- app_assoc. reflexivity.
Qed.

Lemma branches_Sellmeier_eq (k : nat) (w : lens) (s : list float) :
  update w = false -> Sellmeier w = Some s ->
  branches (onChanged (S k)) "Sellmeier" w =
  let w1 := mkLens false (Material w) (Some s) (RefractionIndex w)
              (trace w ++ [CallDispersion]) in
  match refraction_index_from_sellmeier (PyInt 580)
          (PySeq (map PyFloat s)) with
  | Raise e => Failed e w1
  | Ok n =>
      match as_double n with
      | Raise e => Failed e w1
      | Ok f =>
          Done tt (mkLens false (Material w) (Some s) f
                     (trace w ++ [CallDispersion;
                                  SetProperty "RefractionIndex"]))
      end
  end.
Proof.
  intros H Hs. run_branches. rewrite Hs.
  unfold lift, log, with_RefractionIndex.
  cbn [update Material Sellmeier RefractionIndex trace].
  rewrite H, Hs.
  destruct (refraction_index_from_sellmeier _ _) as [n|e]; [|reflexivity].
  destruct (as_double n) as [f|e]; [|reflexivity].
  rewrite onChanged_not_update by reflexivity.
  cbn [update Material Sellmeier RefractionIndex trace].
  rewrite trace_two. reflexivity.
Qed.

Lemma branches_other (k : nat) (prop : string) (w : lens) :
  prop <> "Material" -> prop <> "Sellmeier" -> prop <> "RefractionIndex" ->
  branches (onChanged k) prop w = Done tt w.
Proof.
  intros H1 H2 H3. unfold branches, seq, when, ret.
  apply String.eqb_neq in H1, H2, H3. rewrite H1, H2, H3. reflexivity.
Qed.

Lemma with_update_restores (w : lens) :
  update w = true -> with_update true (with_update false w) = w.
Proof. destruct w as [u m s r t]. cbn. intros ->. reflexivity. Qed.

(** The case analysis of a notification on an idle lens with [Sellmeier]:
    which property changed, and how its branch went. *)
Ltac notification_cases k prop w s Hu Hs :=
  rewrite (onChanged_step k prop w s Hu Hs);
  destruct (String.eqb_spec prop "Material") as [->|NM];
  [ rewrite (branches_Material_eq k (with_update false w) eq_refl);
    cbn [with_update update Material Sellmeier RefractionIndex trace];
    destruct (dict_getitem getMaterials (Material w)) as [[|cs]|e] eqn:Elook;
    [ | destruct (mapM as_double cs) as [fs|e] eqn:Efs;
        [ cbv zeta;
          destruct (refraction_index_from_sellmeier (PyInt 580)
                      (PySeq (map PyFloat fs))) as [n|e] eqn:En;
          [ destruct (refraction_index_is_float _ _ _ En) as [f ->];
            change (as_double (PyFloat f)) with (@Ok float f) | ]
        | ]
    | ]
  | destruct (String.eqb_spec prop "Sellmeier") as [->|NS];
    [ rewrite (branches_Sellmeier_eq k (with_update false w) s eq_refl Hs);
      cbn [with_update update Material Sellmeier RefractionIndex trace];
      cbv zeta;
      destruct (refraction_index_from_sellmeier (PyInt 580)
                  (PySeq (map PyFloat s))) as [n|e] eqn:En;
      [ destruct (refraction_index_is_float _ _ _ En) as [f ->];
        change (as_double (PyFloat f)) with (@Ok float f) | ]
    | destruct (String.eqb_spec prop "RefractionIndex") as [->|NR];
      [ rewrite (branches_RefractionIndex (onChanged (S k))
                   (onChanged_not_update k) (with_update false w) eq_refl);
        cbn [with_update update Material Sellmeier RefractionIndex trace]
      | rewrite (branches_other (S k) prop _ NM NS NR);
        rewrite (with_update_restores w Hu) ] ] ].

(** ** The reconciler: further properties *)

(** X10: a notification for any property other than [Material], [Sellmeier]
    and [RefractionIndex] (the host sends them for [Proxy], [Base], [Label]
    and the like) leaves an idle lens as it was, trace included. *)
Theorem onChanged_other_property_ignored
    (k : nat) (prop : string) (w : lens) (s : list float) :
  Idle w -> Sellmeier w = Some s ->
  prop <> "Material" -> prop <> "Sellmeier" -> prop <> "RefractionIndex" ->
  onChanged (S (S k)) prop w = Done tt w.
Proof.
  intros Hu Hs NM NS NR. rewrite (onChanged_step k prop w s Hu Hs).
  rewrite (branches_other (S k) prop _ NM NS NR).
  rewrite (with_update_restores w Hu). reflexivity.
Qed.

(** X11: a [Material] notification on a lens whose material is not a key of
    the catalog raises [KeyError]; nothing is written and the flag stays
    cleared. *)
Theorem onChanged_Material_unknown_KeyError
    (k : nat) (w : lens) (s : list float) :
  Idle w -> Sellmeier w = Some s -> ~ In (Material w) material_names ->
  onChanged (S (S k)) "Material" w = Failed KeyError (with_update false w).
Proof.
  intros Hu Hs Hn. rewrite (onChanged_step k _ w s Hu Hs).
  rewrite (branches_Material_eq k (with_update false w) eq_refl).
  cbn [with_update Material].
  destruct (dict_getitem getMaterials (Material w)) as [v|e] eqn:E.
  - apply dict_getitem_In, (in_map fst) in E. contradiction.
  - destruct (dict_getitem_raises _ _ _ E) as [-> _]. reflexivity.
Qed.

(** X12: a [Sellmeier] notification on a lens whose list does not hold
    exactly six coefficients raises [ValueError]: [RefractionIndex] and
    [Material] keep their values and the flag stays cleared.  The empty list
    that a direct edit of the index leaves behind is such a list. *)
Theorem onChanged_Sellmeier_wrong_length
    (k : nat) (w : lens) (s : list float) :
  Idle w -> Sellmeier w = Some s -> List.length s <> 6%nat ->
  onChanged (S (S k)) "Sellmeier" w =
  Failed ValueError
    (mkLens false (Material w) (Some s) (RefractionIndex w)
            (trace w ++ [CallDispersion])).
Proof.
  intros Hu Hs Hlen. rewrite (onChanged_step k _ w s Hu Hs).
  rewrite (branches_Sellmeier_eq k (with_update false w) s eq_refl Hs).
  cbn [with_update Material RefractionIndex trace]. cbv zeta.
  assert (E : refraction_index_from_sellmeier (PyInt 580)
                (PySeq (map PyFloat s)) = Raise ValueError).
  { destruct s as [|b1 [|b2 [|b3 [|c1 [|c2 [|c3 [|x xs]]]]]]];
      try reflexivity.
    cbn in Hlen. contradiction. }
  rewrite E. reflexivity.
Qed.

(** X13: what one notification on an idle lens can and cannot do.  It always
    ends.  If it completes, the lens is idle again, and [Material] has
    changed only if the notification was for [RefractionIndex], which in
    turn leaves [RefractionIndex] alone.  If it raises, the flag is left
    cleared and neither [Material] nor [RefractionIndex] has changed.  The
    [Sellmeier] property is never removed. *)
Theorem onChanged_frame (k : nat) (prop : string) (w : lens) (s : list float) :
  Idle w -> Sellmeier w = Some s ->
  match onChanged (S (S k)) prop w with
  | Done _ w' =>
      Idle w' /\ Sellmeier w' <> None /\
      (prop <> "RefractionIndex" -> Material w' = Material w) /\
      (prop = "RefractionIndex" -> RefractionIndex w' = RefractionIndex w)
  | Failed _ w' =>
      Propagating w' /\ Sellmeier w' <> None /\
      Material w' = Material w /\ RefractionIndex w' = RefractionIndex w
  | OutOfFuel => False
  end.
Proof.
  intros Hu Hs. unfold Idle, Propagating.
  notification_cases k prop w s Hu Hs;
    cbn [with_update update Material Sellmeier RefractionIndex trace];
    rewrite ?Hs; repeat split; try discriminate; try congruence; auto.
Qed.

Lemma branches_fuel_irrelevant (k : nat) (prop : string) (w : lens)
    (s : list float) :
  update w = false -> Sellmeier w = Some s ->
  branches (onChanged (S k)) prop w = branches (onChanged 1) prop w.
Proof.
  intros H Hs.
  destruct (String.eqb_spec prop "Material") as [->|NM];
    [rewrite !branches_Material_eq by exact H; reflexivity|].
  destruct (String.eqb_spec prop "Sellmeier") as [->|NS];
    [rewrite !(branches_Sellmeier_eq _ w s H Hs); reflexivity|].
  destruct (String.eqb_spec prop "RefractionIndex") as [->|NR].
  - rewrite !branches_RefractionIndex
      by (try exact H; intros; apply onChanged_not_update; assumption).
    reflexivity.
  - rewrite !branches_other by assumption. reflexivity.
Qed.

(** X14: the handler's own writes re-enter it one level deep and no deeper:
    on any lens and for any property, two levels of fuel give the outcome
    that any larger amount gives, and that outcome is never the exhaustion
    of the fuel. *)
Theorem onChanged_fuel_irrelevant (k : nat) (prop : string) (w : lens) :
  onChanged (S (S k)) prop w = onChanged 2 prop w /\
  onChanged 2 prop w <> OutOfFuel.
Proof.
  split; [|apply onChanged_terminates].
  destruct (update w) eqn:Hu.
  - destruct (Sellmeier w) as [s|] eqn:Hs.
    + rewrite (onChanged_step k prop w s Hu Hs).
      rewrite (onChanged_step 0 prop w s Hu Hs).
      rewrite (branches_fuel_irrelevant k prop (with_update false w) s eq_refl Hs).
      reflexivity.
    + cbn. unfold onChanged_body. rewrite Hu. cbn. rewrite Hs. reflexivity.
  - rewrite !onChanged_not_update by exact Hu. reflexivity.
Qed.

Lemma onChanged_Failed_propagating
    (k : nat) (prop : string) (w : lens) (e : exn) (w' : lens) :
  update w = true -> onChanged (S (S k)) prop w = Failed e w' ->
  update w' = false.
Proof.
  intros Hu H. destruct (Sellmeier w) as [s|] eqn:Hs.
  - rewrite (onChanged_step k prop w s Hu Hs) in H.
    pose proof (guarded_branches (onChanged (S k)) (onChanged_not_update k)
                  prop (with_update false w) eq_refl) as G.
    destruct (branches _ _ _); [discriminate H| |discriminate H].
    injection H as <- <-. exact G.
  - cbn in H. unfold onChanged_body in H. rewrite Hu in H. cbn in H.
    rewrite Hs in H. discriminate H.
Qed.

(** X15: once a notification on an idle lens has raised, the lens is locked
    for good: every later edit is stored by the host and its notification
    ignored, so the three properties are never reconciled again. *)
Theorem failure_locks_forever
    (k : nat) (prop : string) (w : lens) (e : exn) (w' : lens) :
  Idle w -> onChanged (S (S k)) prop w = Failed e w' ->
  forall (j : nat) (es : list edit),
    deliver (S j) es w' =
      Done tt (fold_left (fun w e => store e w) es w') /\
    Propagating (fold_left (fun w e => store e w) es w').
Proof.
  intros Hu H j es. apply deliver_while_propagating.
  exact (onChanged_Failed_propagating k prop w e w' Hu H).
Qed.

(** X16: a notification that completed, delivered a second time, completes
    again and changes no property: only the trace grows. *)
Theorem onChanged_idempotent
    (k : nat) (prop : string) (w : lens) (s : list float) (w1 : lens) :
  Idle w -> Sellmeier w = Some s ->
  onChanged (S (S k)) prop w = Done tt w1 ->
  exists w2,
    onChanged (S (S k)) prop w1 = Done tt w2 /\
    update w2 = update w1 /\ Material w2 = Material w1 /\
    Sellmeier w2 = Sellmeier w1 /\ RefractionIndex w2 = RefractionIndex w1.
Proof.
  intros Hu Hs. unfold Idle in Hu.
  notification_cases k prop w s Hu Hs; try discriminate; intros [= <-].
  - erewrite (onChanged_step k "Material") by reflexivity.
    erewrite branches_Material_eq by reflexivity.
    cbn [with_update update Material Sellmeier RefractionIndex trace].
    rewrite Elook, Efs. cbv zeta. rewrite En.
    change (as_double (PyFloat f)) with (@Ok float f).
    eexists. split; [reflexivity|]. cbn. auto.
  - erewrite (onChanged_step k "Sellmeier") by reflexivity.
    erewrite branches_Sellmeier_eq by reflexivity.
    cbn [with_update update Material Sellmeier RefractionIndex trace].
    cbv zeta. rewrite En.
    change (as_double (PyFloat f)) with (@Ok float f).
    eexists. split; [reflexivity|]. cbn. auto.
  - erewrite (onChanged_step k "RefractionIndex") by reflexivity.
    rewrite (branches_RefractionIndex (onChanged (S k))
               (onChanged_not_update k)) by reflexivity.
    eexists. split; [reflexivity|]. cbn. auto.
  - rewrite (onChanged_step k prop w s Hu Hs).
    rewrite (branches_other (S k) prop _ NM NS NR).
    rewrite (with_update_restores w Hu).
    exists w. auto.
Qed.

(** A [Material] notification on an idle lens whose material is a catalog
    entry with coefficients. *)
Lemma onChanged_Material_catalog
    (k : nat) (w : lens) (s : list float) (cs : list num) (fs : list float)
    (n : float) :
  update w = true -> Sellmeier w = Some s ->
  dict_getitem getMaterials (Material w) = Ok (PySeq cs) ->
  mapM as_double cs = Ok fs ->
  refraction_index_from_sellmeier (PyInt 580) (PySeq (map PyFloat fs))
    = Ok (PyFloat n) ->
  onChanged (S (S k)) "Material" w =
  Done tt (mkLens true (Material w) (Some fs) n
             (trace w ++ [SetProperty "Sellmeier"; CallDispersion;
                          SetProperty "RefractionIndex"])).
Proof.
  intros Hu Hs Hd Hfs Hn. rewrite (onChanged_step k _ w s Hu Hs).
  rewrite (branches_Material_eq k (with_update false w) eq_refl).
  cbn [with_update update Material Sellmeier RefractionIndex trace].
  rewrite Hd, Hfs. cbv zeta. rewrite Hn. reflexivity.
Qed.

(** X17: edits compose: an index entered by hand and then a catalog material
    selected leave the lens idle with that material, the catalog's
    coefficients for it and the index the engine computes from them; the
    index entered by hand is gone. *)
Theorem manual_index_then_material
    (k : nat) (w : lens) (s : list float) (x : float) (m : string)
    (cs : list num) :
  Idle w -> Sellmeier w = Some s ->
  dict_getitem getMaterials m = Ok (PySeq cs) ->
  exists fs n w',
    mapM as_double cs = Ok fs /\
    refraction_index_from_sellmeier (PyInt 580) (PySeq (map PyFloat fs))
      = Ok (PyFloat n) /\
    deliver (S (S k)) [EditRefractionIndex x; EditMaterial m] w
      = Done tt w' /\
    Idle w' /\ Material w' = m /\ Sellmeier w' = Some fs /\
    RefractionIndex w' = n.
Proof.
  intros Hu Hs Hd.
  destruct (catalog_entry_computes m cs Hd) as (fs & n & _ & Hfs & Hn & _).
  exists fs, n. cbn [deliver edited store].
  erewrite (onChanged_step k "RefractionIndex") by (cbn; eassumption).
  rewrite (branches_RefractionIndex (onChanged (S k))
             (onChanged_not_update k)) by reflexivity.
  cbn [with_update with_Material update Material Sellmeier RefractionIndex
       trace].
  erewrite (onChanged_Material_catalog k _ [] cs fs n);
    [|reflexivity|reflexivity|exact Hd|exact Hfs|exact Hn].
  eexists. split; [exact Hfs|]. split; [exact Hn|].
  split; [reflexivity|]. cbn. unfold Idle. auto.
Qed.

(** ** The lens constructor: properties *)

Lemma onChanged_other
    (k : nat) (prop : string) (w : lens) (s : list float) :
  update w = true -> Sellmeier w = Some s ->
  prop <> "Material" -> prop <> "Sellmeier" -> prop <> "RefractionIndex" ->
  onChanged (S (S k)) prop w = Done tt w.
Proof.
  intros Hu Hs NM NS NR. rewrite (onChanged_step k prop w s Hu Hs).
  rewrite (branches_other (S k) prop _ NM NS NR).
  rewrite (with_update_restores w Hu). reflexivity.
Qed.

Lemma existsb_eqb_In (m : string) (l : list string) :
  existsb (String.eqb m) l = true <-> In m l.
Proof.
  rewrite existsb_exists. split.
  - intros (x & Hx & E). apply String.eqb_eq in E. subst x. exact Hx.
  - intros H. exists m. split; [exact H|apply String.eqb_refl].
Qed.

(** The constructor up to the selection of the material. *)
Lemma LensWorker_init_unfold
    (k : nat) (ri : num) (r : float) (material : string) (w : lens) :
  as_double ri = Ok r ->
  LensWorker_init (S (S k)) ri material w =
  set_Material (onChanged (S (S k)))
    (if existsb (String.eqb material) material_names then material else "?")
    (mkLens true "?" (Some []) r (trace w)).
Proof.
  intros Hr. unfold LensWorker_init, seq, lift. rewrite Hr.
  change (hd EmptyString material_names) with "?".
  cbn [with_update with_RefractionIndex with_Sellmeier with_Material
       update Material Sellmeier RefractionIndex trace].
  rewrite (onChanged_other k "Proxy" _ []);
    [|reflexivity|reflexivity|discriminate|discriminate|discriminate].
  destruct (existsb _ _); reflexivity.
Qed.

(** X18: constructing a lens with a catalog material that has coefficients
    completes and leaves the lens idle, with that material, the catalog's
    coefficients for it and the index the engine computes from them at
    580 nm: the [RefractionIndex] argument has no effect. *)
Theorem LensWorker_init_catalog
    (k : nat) (ri : num) (r : float) (material : string) (cs : list num)
    (w : lens) :
  as_double ri = Ok r ->
  dict_getitem getMaterials material = Ok (PySeq cs) ->
  exists fs n,
    mapM as_double cs = Ok fs /\
    refraction_index_from_sellmeier (PyInt 580) (PySeq (map PyFloat fs))
      = Ok (PyFloat n) /\
    LensWorker_init (S (S k)) ri material w =
    Done tt (mkLens true material (Some fs) n
               (trace w ++ [SetProperty "Material"; SetProperty "Sellmeier";
                            CallDispersion; SetProperty "RefractionIndex"])).
Proof.
  intros Hr Hd.
  destruct (catalog_entry_computes material cs Hd)
    as (fs & n & _ & Hfs & Hn & _).
  exists fs, n. split; [exact Hfs|]. split; [exact Hn|].
  rewrite (LensWorker_init_unfold k ri r material w Hr).
  assert (Hin : In material material_names).
  { apply (proj1 (getMaterials_names_lookup material)). eauto. }
  pose proof (proj2 (existsb_eqb_In material material_names) Hin) as Hex.
  rewrite Hex. unfold set_Material. rewrite Hex.
  unfold log, with_Material.
  cbn [update Material Sellmeier RefractionIndex trace].
  erewrite (onChanged_Material_catalog k _ [] cs fs n);
    [|reflexivity|reflexivity|exact Hd|exact Hfs|exact Hn].
  cbn [update Material Sellmeier RefractionIndex trace].
  rewrite <- app_assoc. reflexivity.
Qed.

(** X19: constructing a lens with a material the catalog does not list (the
    default, the empty name, is one) or with the sentinel selects ["?"], on
    which the handler raises [TypeError]: the lens is left with the flag
    cleared, the material ["?"], no coefficients and the [RefractionIndex]
    argument as its index. *)
Theorem LensWorker_init_fallback
    (k : nat) (ri : num) (r : float) (material : string) (w : lens) :
  as_double ri = Ok r ->
  ~ In material material_names \/ material = "?" ->
  LensWorker_init (S (S k)) ri material w =
  Failed TypeError
    (mkLens false "?" (Some []) r (trace w ++ [SetProperty "Material"])).
Proof.
  intros Hr Hm.
  rewrite (LensWorker_init_unfold k ri r material w Hr).
  assert (E : (if existsb (String.eqb material) material_names
               then material else "?") = "?").
  { destruct Hm as [Hn| ->]; [|reflexivity].
    destruct (existsb _ _) eqn:Ex; [|reflexivity].
    apply existsb_eqb_In in Ex. contradiction. }
  rewrite E. unfold set_Material.
  change (existsb (String.eqb "?") material_names) with true. cbv iota.
  unfold log, with_Material.
  cbn [update Material Sellmeier RefractionIndex trace].
  erewrite (onChanged_step k "Material") by reflexivity.
  erewrite branches_Material_eq by reflexivity.
  reflexivity.
Qed.

(** ** The view provider: properties *)

Lemma set_Visibility_same (sc : scene) (vp : nat) (v : bool) :
  Visibility (set_Visibility sc vp v vp) = v.
Proof. unfold set_Visibility. rewrite Nat.eqb_refl. reflexivity. Qed.

Lemma set_Visibility_other (sc : scene) (vp j : nat) (v : bool) :
  j <> vp -> set_Visibility sc vp v j = sc j.
Proof.
  intros H. unfold set_Visibility.
  apply Nat.eqb_neq in H. rewrite H. reflexivity.
Qed.

Lemma set_Visibility_children (sc : scene) (vp j : nat) (v : bool) :
  ClaimedChildren (set_Visibility sc vp v j) = ClaimedChildren (sc j).
Proof.
  unfold set_Visibility. destruct (Nat.eqb_spec j vp) as [->|_]; reflexivity.
Qed.

(** The loop of the handler: as long as the parent shows [v], it writes [v]
    and nothing else, so the parent goes on showing [v], even when it is one
    of its own children. *)
Lemma Visibility_loop (fp : nat) (v : bool) (cs : list nat) :
  forall sc, Visibility (sc fp) = v ->
    let sc' := fold_left
                 (fun sc vp => set_Visibility sc vp (Visibility (sc fp)))
                 cs sc in
    Visibility (sc' fp) = v /\
    (forall j, In j cs -> Visibility (sc' j) = v) /\
    (forall j, ~ In j cs -> sc' j = sc j) /\
    (forall j, Visibility (sc j) = v -> Visibility (sc' j) = v) /\
    (forall j, ClaimedChildren (sc' j) = ClaimedChildren (sc j)).
Proof.
  induction cs as [|c cs IH]; intros sc Hv; cbn [fold_left].
  - repeat split; auto. intros j [].
  - rewrite Hv.
    assert (Keep : forall j, Visibility (sc j) = v ->
                     Visibility (set_Visibility sc c v j) = v).
    { intros j Hj. destruct (Nat.eq_dec j c) as [->|Hne].
      - apply set_Visibility_same.
      - rewrite set_Visibility_other by exact Hne. exact Hj. }
    destruct (IH (set_Visibility sc c v) (Keep fp Hv))
      as (Hfp & Hin & Hout & Hkeep & Hch).
    split; [exact Hfp|]. split; [|split; [|split]].
    + intros j [<-|Hj]; [|apply Hin, Hj].
      apply Hkeep, set_Visibility_same.
    + intros j Hj. rewrite Hout by (intros H; apply Hj; right; exact H).
      apply set_Visibility_other. intros ->. apply Hj. left. reflexivity.
    + intros j Hj. apply Hkeep, Keep, Hj.
    + intros j. rewrite Hch. apply set_Visibility_children.
Qed.

(** X20: a [Visibility] notification on a view object gives all the
    children it claims its own visibility, which it keeps; every other view
    object is as it was, and no list of children changes.  A notification
    for any other property, the one [attach] sends included, changes
    nothing. *)
Theorem ViewProvider_Visibility_propagates (fp : nat) (sc : scene) :
  (forall c, In c (ClaimedChildren (sc fp)) ->
     Visibility (ViewProvider_onChanged fp "Visibility" sc c)
       = Visibility (sc fp)) /\
  Visibility (ViewProvider_onChanged fp "Visibility" sc fp)
    = Visibility (sc fp) /\
  (forall j, ~ In j (ClaimedChildren (sc fp)) ->
     ViewProvider_onChanged fp "Visibility" sc j = sc j) /\
  (forall j, ClaimedChildren (ViewProvider_onChanged fp "Visibility" sc j)
             = ClaimedChildren (sc j)) /\
  (forall prop, prop <> "Visibility" ->
     ViewProvider_onChanged fp prop sc = sc) /\
  ViewProvider_attach fp sc = sc.
Proof.
  destruct (Visibility_loop fp (Visibility (sc fp)) (ClaimedChildren (sc fp))
              sc eq_refl) as (Hfp & Hin & Hout & _ & Hch).
  unfold ViewProvider_attach, ViewProvider_onChanged.
  cbn [String.eqb Ascii.eqb Bool.eqb].
  repeat split; auto.
  intros prop Hp. apply String.eqb_neq in Hp. rewrite Hp. reflexivity.
Qed.

End Workbench.

(** ** The claims at sample inputs *)


(** A resonance at the square of 580 makes the engine raise. *)
Lemma refraction_index_domain_error_at_resonance :
  SFeqb (float_of_Z 336400) (float_of_Z 336400) = true /\
  exists e,
    refraction_index_from_sellmeier pow_at_2 (PyInt 580)
      (PySeq (map PyFloat resonant)) = Raise e /\
    DomainError e.
Proof.
  split; [reflexivity|].
  apply (refraction_index_domain_error pow_at_2 (PyInt 580)
           (float_of_Z 336400) one zero zero (float_of_Z 336400) zero zero).
  - reflexivity.
  - reflexivity.
  - left. left. reflexivity.
Defined.

(** Selecting the sentinel on a fresh lens fails and leaves the flag
    cleared. *)
Lemma Material_sentinel_raises_new_lens :
  Idle (new_lens "?") /\
  onChanged pow_at_2 2 "Material" (new_lens "?") =
  Failed TypeError (mkLens false "?" (Some []) one []).
Proof.
  split; [reflexivity|].
  apply (Material_sentinel_raises pow_at_2 0 (new_lens "?") []); reflexivity.
Defined.

(** C2 fails: a [Sellmeier] edit that puts a resonance at 580 nm makes the
    engine raise [ZeroDivisionError], and the handler ends with the flag
    cleared, not set. *)
Lemma flag_not_restored_after_ZeroDivisionError :
  Idle resonant_lens /\
  refraction_index_from_sellmeier pow_at_2 (PyInt 580)
    (PySeq (map PyFloat resonant)) = Raise ZeroDivisionError /\
  exists w',
    onChanged pow_at_2 2 "Sellmeier" resonant_lens =
      Failed ZeroDivisionError w' /\
    ~ Idle w'.
Proof.
  split; [reflexivity|]. split; [reflexivity|].
  eexists. split; [reflexivity|].
  unfold Idle. cbn. discriminate.
Qed.

(** The engine's [ZeroDivisionError] reaches the caller of the handler. *)
Lemma error_reaches_caller_flag_cleared_resonant :
  Idle resonant_lens /\
  onChanged pow_at_2 2 "Sellmeier" resonant_lens =
  Failed ZeroDivisionError
    (mkLens false "Vacuum" (Some resonant) one [CallDispersion]).
Proof.
  split; [reflexivity|].
  apply (proj2 (error_reaches_caller_flag_cleared pow_at_2 0 "Sellmeier"
                  resonant_lens eq_refl) resonant ZeroDivisionError);
    reflexivity.
Defined.

(** A notification on a lens that is propagating changes nothing. *)
Lemma onChanged_while_propagating_ignored_glass :
  Propagating (with_update false glass_lens) /\
  onChanged pow_at_2 1 "Material" (with_update false glass_lens) =
  Done tt (with_update false glass_lens).
Proof.
  split; [reflexivity|].
  apply (onChanged_while_propagating_ignored pow_at_2 0); reflexivity.
Defined.

(** Editing the index of a window-glass lens makes its material the
    sentinel and empties its coefficients. *)
Lemma RefractionIndex_changed_sets_sentinel_glass :
  Idle glass_lens /\
  onChanged pow_at_2 2 "RefractionIndex" glass_lens =
  Done tt (mkLens true "?" (Some []) one
             [SetProperty "Material"; SetProperty "Sellmeier"]).
Proof.
  split; [reflexivity|].
  apply (RefractionIndex_changed_sets_sentinel pow_at_2 0 glass_lens
           window_glass); reflexivity.
Defined.

(** Editing the coefficients of a lens to those of window glass gives it
    the index of window glass; the material stays. *)
Lemma Sellmeier_changed_recomputes_index_glass :
  Idle glass_lens /\
  exists f,
    S754_finite false 6832509272611870 (-52) = f /\
    onChanged pow_at_2 2 "Sellmeier" glass_lens =
    Done tt (mkLens true "Window glass" (Some window_glass) f
               [CallDispersion; SetProperty "RefractionIndex"]).
Proof.
  split; [reflexivity|].
  pose proof (Sellmeier_changed_recomputes_index pow_at_2 0 glass_lens
                window_glass eq_refl eq_refl) as H.
  vm_compute in H. destruct H as [f [Hf H]]. exists f. split.
  - injection Hf as Hf. exact Hf.
  - exact H.
Defined.

(** Selecting quartz on a fresh lens completes. *)
Lemma Material_changed_restores_invariant_quartz :
  Idle (new_lens "Quartz") /\
  exists fs n,
    onChanged pow_at_2 2 "Material" (new_lens "Quartz") =
    Done tt (mkLens true "Quartz" (Some fs) n
               [SetProperty "Sellmeier"; CallDispersion;
                SetProperty "RefractionIndex"]).
Proof.
  split; [reflexivity|].
  destruct (Material_changed_restores_invariant pow_at_2 0 (new_lens "Quartz")
              [] "Quartz"
              [literal 6961663 7; literal 4079426 7; literal 8974794 7;
               literal 467914826 5; literal 135120631 4; literal 979340025 1]
              eq_refl eq_refl eq_refl eq_refl)
    as (fs & n & _ & _ & _ & H).
  exists fs, n. exact H.
Defined.

(** A notification on a feature without [Sellmeier] locks it: later edits
    of the coefficients and of the material are stored and not reconciled. *)
Lemma onChanged_without_Sellmeier_locks_bare :
  Idle bare_lens /\ Sellmeier bare_lens = None /\
  onChanged pow_at_2 1 "Material" bare_lens = Done tt (with_update false bare_lens) /\
  deliver pow_at_2 2 [EditSellmeier window_glass; EditMaterial "Quartz"]
    (with_update false bare_lens) =
  Done tt (mkLens false "Quartz" (Some window_glass) one []).
Proof.
  split; [reflexivity|]. split; [reflexivity|].
  destruct (onChanged_without_Sellmeier_locks pow_at_2 0 "Material" bare_lens
              eq_refl eq_refl) as [H1 H2].
  split; [exact H1|].
  exact (proj1 (H2 1%nat [EditSellmeier window_glass; EditMaterial "Quartz"])).
Defined.

(** ** The further properties at sample inputs *)

(** The floats a lens holds for quartz. *)
Lemma catalog_entries_unpack_quartz :
  dict_getitem getMaterials "Quartz" =
    Ok (PySeq [literal 6961663 7; literal 4079426 7; literal 8974794 7;
               literal 467914826 5; literal 135120631 4;
               literal 979340025 1]) /\
  exists cs fs,
    PySeq [literal 6961663 7; literal 4079426 7; literal 8974794 7;
           literal 467914826 5; literal 135120631 4; literal 979340025 1]
      = PySeq cs /\
    List.length cs = 6%nat /\ mapM as_double cs = Ok fs.
Proof.
  assert (E : dict_getitem getMaterials "Quartz" =
    Ok (PySeq [literal 6961663 7; literal 4079426 7; literal 8974794 7;
               literal 467914826 5; literal 135120631 4;
               literal 979340025 1])) by (vm_compute; reflexivity).
  split; [exact E|].
  destruct (catalog_entries_unpack pow_at_2 "Quartz" _ E) as [[H _]|H].
  - discriminate H.
  - exact H.
Defined.

(** The index of window glass lies between 1.0 and 1.6. *)
Lemma catalog_indices_in_range_window_glass :
  dict_getitem getMaterials "Window glass" =
    Ok (PySeq [literal 103961212 8; literal 231792344 9;
               literal 101046945 8; literal 600069867 5;
               literal 200179144 4; PyInt 103560653]) /\
  exists fs n,
    mapM as_double [literal 103961212 8; literal 231792344 9;
                    literal 101046945 8; literal 600069867 5;
                    literal 200179144 4; PyInt 103560653] = Ok fs /\
    refraction_index_from_sellmeier pow_at_2 (PyInt 580)
      (PySeq (map PyFloat fs)) = Ok (PyFloat n) /\
    SFleb one n = true /\ SFltb n one_point_six = true.
Proof.
  assert (E : dict_getitem getMaterials "Window glass" =
    Ok (PySeq [literal 103961212 8; literal 231792344 9;
               literal 101046945 8; literal 600069867 5;
               literal 200179144 4; PyInt 103560653]))
    by (vm_compute; reflexivity).
  split; [exact E|].
  exact (catalog_indices_in_range pow_at_2 "Window glass" _ E).
Defined.

(** The index of window glass at 580 nm is not below zero. *)
Lemma refraction_index_never_negative_window_glass :
  refraction_index_from_sellmeier pow_at_2 (PyInt 580)
    (PySeq (map PyFloat window_glass)) =
    Ok (PyFloat (S754_finite false 6832509272611870 (-52))) /\
  exists f,
    PyFloat (S754_finite false 6832509272611870 (-52)) = PyFloat f /\
    SFltb f zero = false.
Proof.
  assert (E : refraction_index_from_sellmeier pow_at_2 (PyInt 580)
                (PySeq (map PyFloat window_glass)) =
              Ok (PyFloat (S754_finite false 6832509272611870 (-52))))
    by (vm_compute; reflexivity).
  split; [exact E|].
  exact (refraction_index_never_negative pow_at_2 (PyInt 580)
           (PySeq (map PyFloat window_glass))
           (PyFloat (S754_finite false 6832509272611870 (-52))) E).
Defined.

(** Window glass: the index squares to the exact radicand, to one part in
    [2^51]. *)
Lemma catalog_indices_match_exact_equation_window_glass :
  dict_getitem getMaterials "Window glass" =
    Ok (PySeq [literal 103961212 8; literal 231792344 9;
               literal 101046945 8; literal 600069867 5;
               literal 200179144 4; PyInt 103560653]) /\
  exists fs n,
    mapM as_double [literal 103961212 8; literal 231792344 9;
                    literal 101046945 8; literal 600069867 5;
                    literal 200179144 4; PyInt 103560653] = Ok fs /\
    refraction_index_from_sellmeier pow_at_2 (PyInt 580)
      (PySeq (map PyFloat fs)) = Ok (PyFloat n) /\
    forallb is_number (n :: fs) = true /\
    off_resonance 580 (map Q_of_float (skipn 3 fs)) = true /\
    squares_to 51 (Q_of_float n)
      (sellmeier_exact 580 (map Q_of_float (firstn 3 fs))
                           (map Q_of_float (skipn 3 fs))) = true.
Proof.
  assert (E : dict_getitem getMaterials "Window glass" =
    Ok (PySeq [literal 103961212 8; literal 231792344 9;
               literal 101046945 8; literal 600069867 5;
               literal 200179144 4; PyInt 103560653]))
    by (vm_compute; reflexivity).
  split; [exact E|].
  exact (catalog_indices_match_exact_equation pow_at_2 "Window glass" _ E).
Defined.

(** At a resonance the exception is one of the three. *)
Lemma refraction_index_raises_only_resonant :
  refraction_index_from_sellmeier pow_at_2 (PyInt 580)
    (PySeq (map PyFloat resonant)) = Raise ZeroDivisionError /\
  (ZeroDivisionError = ValueError \/
   ZeroDivisionError = ZeroDivisionError \/
   ZeroDivisionError = OverflowError).
Proof.
  assert (E : refraction_index_from_sellmeier pow_at_2 (PyInt 580)
                (PySeq (map PyFloat resonant)) = Raise ZeroDivisionError)
    by (vm_compute; reflexivity).
  split; [exact E|].
  exact (refraction_index_raises_only pow_at_2 (PyInt 580)
           (map PyFloat resonant) ZeroDivisionError E).
Defined.

(** Vacuum at the sodium line, a [float] wavelength. *)
Lemma vacuum_has_no_dispersion_sodium :
  wavelength_squared pow_at_2 sodium =
    Ok (S754_finite false 5966130309140315 (-34)) /\
  refraction_index_from_sellmeier pow_at_2 sodium
    (PySeq (map PyFloat vacuum)) = Ok (PyFloat one).
Proof.
  assert (E : wavelength_squared pow_at_2 sodium =
              Ok (S754_finite false 5966130309140315 (-34)))
    by (vm_compute; reflexivity).
  split; [exact E|].
  exact (vacuum_has_no_dispersion pow_at_2 sodium _ false
           5966130309140315 (-34) E eq_refl).
Defined.

(** The outcome on window glass at 580 nm: no resonance, a radicand above
    zero, the reference formula. *)
Lemma refraction_index_outcome_window_glass :
  forallb binary64 (float_of_Z 336400 :: window_glass) = true /\
  refraction_index_from_sellmeier pow_at_2 (PyInt 580)
    (PySeq (map PyFloat window_glass)) =
  Ok (PyFloat (S754_finite false 6832509272611870 (-52))).
Proof.
  split; [vm_compute; reflexivity|].
  assert (Hl : wavelength_squared pow_at_2 (PyInt 580) =
               Ok (float_of_Z 336400)) by (vm_compute; reflexivity).
  unfold window_glass.
  rewrite (refraction_index_outcome pow_at_2 (PyInt 580) (float_of_Z 336400)
             _ _ _ _ _ _ Hl);
    vm_compute; reflexivity.
Defined.

(** The notification the host sends for [Proxy] changes nothing. *)
Lemma onChanged_other_property_ignored_Proxy :
  Idle glass_lens /\
  onChanged pow_at_2 2 "Proxy" glass_lens = Done tt glass_lens.
Proof.
  split; [reflexivity|].
  apply (onChanged_other_property_ignored pow_at_2 0 "Proxy" glass_lens
           window_glass); try reflexivity; discriminate.
Defined.

(** ["Diamond"] is no key of the catalog. *)
Lemma onChanged_Material_unknown_KeyError_diamond :
  ~ In "Diamond" material_names /\
  onChanged pow_at_2 2 "Material" diamond_lens =
  Failed KeyError (with_update false diamond_lens).
Proof.
  assert (H : ~ In "Diamond" material_names).
  { cbn. intros H. repeat (destruct H as [H|H]; [discriminate H|]).
    exact H. }
  split; [exact H|].
  exact (onChanged_Material_unknown_KeyError pow_at_2 0 diamond_lens []
           eq_refl eq_refl H).
Defined.

(** A [Sellmeier] notification on a lens whose index was entered by hand. *)
Lemma onChanged_Sellmeier_wrong_length_custom :
  Idle custom_lens /\
  onChanged pow_at_2 2 "Sellmeier" custom_lens =
  Failed ValueError
    (mkLens false "?" (Some []) one_point_six [CallDispersion]).
Proof.
  split; [reflexivity|].
  apply (onChanged_Sellmeier_wrong_length pow_at_2 0 custom_lens []);
    try reflexivity; discriminate.
Defined.

(** An index entered by hand on a window-glass lens: the lens is idle
    again and the index it held is the one it holds. *)
Lemma onChanged_frame_glass :
  Idle glass_lens /\
  match onChanged pow_at_2 2 "RefractionIndex" glass_lens with
  | Done _ w' => Idle w' /\ RefractionIndex w' = one
  | _ => False
  end.
Proof.
  split; [reflexivity|].
  pose proof (onChanged_frame pow_at_2 0 "RefractionIndex" glass_lens
                window_glass eq_refl eq_refl) as H.
  destruct (onChanged pow_at_2 2 "RefractionIndex" glass_lens)
    as [[] w'|e w'|] eqn:E.
  - destruct H as (Hi & _ & _ & Hr). split; [exact Hi|exact (Hr eq_refl)].
  - vm_compute in E. discriminate E.
  - exact H.
Defined.

(** After the [ZeroDivisionError] at the resonance, selecting quartz is
    stored and not reconciled. *)
Lemma failure_locks_forever_resonant :
  Idle resonant_lens /\
  onChanged pow_at_2 2 "Sellmeier" resonant_lens =
    Failed ZeroDivisionError
      (mkLens false "Vacuum" (Some resonant) one [CallDispersion]) /\
  deliver pow_at_2 2 [EditMaterial "Quartz"]
    (mkLens false "Vacuum" (Some resonant) one [CallDispersion]) =
  Done tt (mkLens false "Quartz" (Some resonant) one [CallDispersion]).
Proof.
  assert (E : onChanged pow_at_2 2 "Sellmeier" resonant_lens =
    Failed ZeroDivisionError
      (mkLens false "Vacuum" (Some resonant) one [CallDispersion]))
    by (vm_compute; reflexivity).
  split; [reflexivity|]. split; [exact E|].
  exact (proj1 (failure_locks_forever pow_at_2 0 "Sellmeier" resonant_lens
                  ZeroDivisionError
                  (mkLens false "Vacuum" (Some resonant) one [CallDispersion])
                  eq_refl E 1%nat [EditMaterial "Quartz"])).
Defined.

(** Selecting quartz twice. *)
Lemma onChanged_idempotent_quartz :
  Idle (new_lens "Quartz") /\
  exists w1 w2,
    onChanged pow_at_2 2 "Material" (new_lens "Quartz") = Done tt w1 /\
    onChanged pow_at_2 2 "Material" w1 = Done tt w2 /\
    Sellmeier w2 = Sellmeier w1 /\ RefractionIndex w2 = RefractionIndex w1.
Proof.
  split; [reflexivity|].
  let r := eval vm_compute in
    (onChanged pow_at_2 2 "Material" (new_lens "Quartz")) in
  match r with
  | Done tt ?w1 =>
      assert (E : onChanged pow_at_2 2 "Material" (new_lens "Quartz")
                  = Done tt w1) by (vm_compute; reflexivity);
      destruct (onChanged_idempotent pow_at_2 0 "Material"
                  (new_lens "Quartz") [] w1 eq_refl eq_refl E)
        as (w2 & H & _ & _ & Hs & Hr);
      exists w1, w2; repeat split; assumption
  end.
Defined.

(** An index entered by hand, then polycarbonate selected. *)
Lemma manual_index_then_material_polycarbonate :
  Idle glass_lens /\
  exists w',
    deliver pow_at_2 2
      [EditRefractionIndex one_point_six; EditMaterial "Polycarbonate"]
      glass_lens = Done tt w' /\
    Idle w' /\ Material w' = "Polycarbonate".
Proof.
  split; [reflexivity|].
  assert (E : dict_getitem getMaterials "Polycarbonate" =
    Ok (PySeq [literal 14182 4; PyInt 0; PyInt 0;
               PyInt 21304; PyInt 0; PyInt 0]))
    by (vm_compute; reflexivity).
  destruct (manual_index_then_material pow_at_2 0 glass_lens window_glass
              one_point_six "Polycarbonate" _ eq_refl eq_refl E)
    as (fs & n & w' & _ & _ & H & Hi & Hm & _).
  exists w'. split; [exact H|]. split; assumption.
Defined.

(** The lens command's call: window glass, the default index. *)
Lemma LensWorker_init_catalog_window_glass :
  as_double (PyInt 1) = Ok one /\
  exists fs n,
    LensWorker_init pow_at_2 2 (PyInt 1) "Window glass" fresh_feature =
    Done tt (mkLens true "Window glass" (Some fs) n
               [SetProperty "Material"; SetProperty "Sellmeier";
                CallDispersion; SetProperty "RefractionIndex"]).
Proof.
  assert (Hr : as_double (PyInt 1) = Ok one) by (vm_compute; reflexivity).
  assert (E : dict_getitem getMaterials "Window glass" =
    Ok (PySeq [literal 103961212 8; literal 231792344 9;
               literal 101046945 8; literal 600069867 5;
               literal 200179144 4; PyInt 103560653]))
    by (vm_compute; reflexivity).
  split; [exact Hr|].
  destruct (LensWorker_init_catalog pow_at_2 0 (PyInt 1) one "Window glass"
              _ fresh_feature Hr E) as (fs & n & _ & _ & H).
  exists fs, n. exact H.
Defined.

(** The constructor's defaults: no material named, index 1. *)
Lemma LensWorker_init_fallback_default :
  ~ In EmptyString material_names /\
  LensWorker_init pow_at_2 2 (PyInt 1) EmptyString fresh_feature =
  Failed TypeError
    (mkLens false "?" (Some []) one [SetProperty "Material"]).
Proof.
  assert (Hr : as_double (PyInt 1) = Ok one) by (vm_compute; reflexivity).
  assert (H : ~ In EmptyString material_names).
  { cbn. intros H. repeat (destruct H as [H|H]; [discriminate H|]).
    exact H. }
  split; [exact H|].
  exact (LensWorker_init_fallback pow_at_2 0 (PyInt 1) one EmptyString
           fresh_feature Hr (or_introl H)).
Defined.

(** Hiding the parent of the sample scene hides its two children. *)
Lemma ViewProvider_Visibility_propagates_sample :
  In 2%nat (ClaimedChildren (sample_scene 0%nat)) /\
  Visibility (ViewProvider_onChanged 0 "Visibility" sample_scene 2%nat)
    = false.
Proof.
  assert (H : In 2%nat (ClaimedChildren (sample_scene 0%nat)))
    by (right; left; reflexivity).
  split; [exact H|].
  exact (proj1 (ViewProvider_Visibility_propagates 0 sample_scene) 2%nat H).
Defined.
